(** * scrapy-fake-useragent: the user-agent providers

    A shallow embedding of [scrapy_fake_useragent/providers.py] and the
    properties of its four provider classes.

    Python objects become records, one per provider class.  A method runs
    in a state-and-exception monad over a [world]: the instance it is
    called on ([self]), the records emitted through the module's [logger],
    and the state of Python's [random] module.  The three third-party
    libraries the providers wrap ([fake_useragent], [faker],
    [random_user_agent]) are interfaces (type classes): a theorem holds for
    every implementation, and examples run on small sample instances. *)

From Stdlib Require Import Ascii.
From stdpp Require Import base option list strings gmap.

Local Open Scope string_scope.

(** ** Python values *)

(** The values a settings mapping holds and a provider returns.  A [dict]
    keeps its insertion order, which [items()] and iteration follow. *)
#[warnings="-register-all"]
Inductive pyval : Type :=
| PyNone
| PyBool (b : bool)
| PyInt (n : Z)
| PyStr (s : string)
| PyList (elems : list pyval)
| PyDict (items : list (string * pyval)).

(** Truth value of an object, as [or] and [if] test it. *)
Definition truthy (v : pyval) : bool :=
  match v with
  | PyNone => false
  | PyBool b => b
  | PyInt n => negb (n =? 0)%Z
  | PyStr s => negb (String.eqb s EmptyString)
  | PyList l => match l with [] => false | _ => true end
  | PyDict l => match l with [] => false | _ => true end
  end.

(** [a or b] *)
Definition py_or (a b : pyval) : pyval := if truthy a then a else b.

(** [c.upper()] on one character (ASCII letters; other bytes are kept). *)
Definition ascii_upper (c : ascii) : ascii :=
  let n := nat_of_ascii c in
  if ((97 <=? n)%nat && (n <=? 122)%nat)%bool then ascii_of_nat (n - 32) else c.

(** [s.upper()] *)
Fixpoint upper (s : string) : string :=
  match s with
  | EmptyString => EmptyString
  | String c r => String (ascii_upper c) (upper r)
  end.

(** A settings mapping and its [get(name, default)]. *)
Definition settings_get (settings : gmap string pyval) (name : string)
    (dflt : pyval) : pyval :=
  default dflt (settings !! name).

(** ** Exceptions, logging, randomness *)

Inductive exn : Type :=
| AttributeError
| IndexError
| KeyError (key : string)
| TypeError
| Exception (args : list pyval)
| LibraryError (name : string).

Definition is_AttributeError (e : exn) : bool :=
  match e with AttributeError => true | _ => false end.

Definition is_IndexError (e : exn) : bool :=
  match e with IndexError => true | _ => false end.

Inductive result (A : Type) : Type :=
| Ok (a : A)
| Raise (e : exn).
Arguments Ok {A} a.
Arguments Raise {A} e.

Inductive Level : Type := ERROR | WARNING | DEBUG.

(** One call of [logger.error], [logger.warning] or [logger.debug]: the
    format string and the arguments, as passed (the logging module formats
    lazily and never raises into the caller). *)
Record LogRecord : Type := mkLog {
  level : Level;
  fmt : string;
  args : list pyval
}.

(** The [random] module's state: the draws still to come. *)
Definition Rng : Type := list nat.

(** A library call: it may draw random numbers and may raise. *)
Definition Lib (A : Type) : Type := Rng -> result A * Rng.

(** What [getattr] finds on a library object: a bound method of no
    arguments, or a plain value. *)
Inductive pyattr : Type :=
| Method (call : Lib pyval)
| Value (v : pyval).

(** ** The monad of method bodies *)

Record world (S : Type) : Type := World {
  self : S;
  logger : list LogRecord;
  rng : Rng
}.
Arguments World {S} self logger rng.
Arguments self {S} w.
Arguments logger {S} w.
Arguments rng {S} w.

Definition M (S A : Type) : Type := world S -> result A * world S.

Definition ret {S A} (a : A) : M S A := fun w => (Ok a, w).

Definition bind {S A B} (m : M S A) (k : A -> M S B) : M S B :=
  fun w =>
    match m w with
    | (Ok a, w') => k a w'
    | (Raise e, w') => (Raise e, w')
    end.

Definition raise {S A} (e : exn) : M S A := fun w => (Raise e, w).

(** [try: body except E: handler], with [E] given by its test.  What the
    body did before it raised stays done. *)
Definition try_except {S A} (body : M S A) (catches : exn -> bool)
    (handler : M S A) : M S A :=
  fun w =>
    match body w with
    | (Ok a, w') => (Ok a, w')
    | (Raise e, w') => if catches e then handler w' else (Raise e, w')
    end.

Definition get_self {S} : M S S := fun w => (Ok (self w), w).

Definition log {S} (l : Level) (f : string) (a : list pyval) : M S unit :=
  fun w => (Ok tt, World (self w) (logger w ++ [mkLog l f a]) (rng w)).

Definition lib {S A} (c : Lib A) : M S A :=
  fun w => let (r, g) := c (rng w) in (r, World (self w) (logger w) g).

Declare Scope py_scope.
Delimit Scope py_scope with py.
Notation "x <- c1 ;; c2" := (bind c1 (fun x => c2))
  (at level 100, c1 at next level, right associativity) : py_scope.
Notation "c1 ;;; c2" := (bind c1 (fun _ => c2))
  (at level 100, right associativity) : py_scope.
Local Open Scope py_scope.

(** [getattr(obj, name)], where [lookup] resolves a name on [obj]. *)
Definition getattr {S A} (lookup : string -> M S A) (name : pyval) : M S A :=
  match name with
  | PyStr n => lookup n
  | _ => raise TypeError
  end.

(** Attribute resolution on an object with a fixed table of attributes. *)
Definition attr_of {S} (table : string -> option pyattr) (n : string)
    : M S pyattr :=
  match table n with
  | Some a => ret a
  | None => raise AttributeError
  end.

(** [attr()] *)
Definition call {S} (a : pyattr) : M S pyval :=
  match a with
  | Method f => lib f
  | Value _ => raise TypeError
  end.

(** The strings of a list, when all its elements are strings. *)
Fixpoint strings_of (l : list pyval) : option (list string) :=
  match l with
  | [] => Some []
  | PyStr s :: r => option_map (cons s) (strings_of r)
  | _ => None
  end.

(** [sep.join(v)]: a dict is iterated by key, a string by character. *)
Definition str_join {S} (sep : string) (v : pyval) : M S string :=
  match v with
  | PyDict items => ret (String.concat sep (map fst items))
  | PyStr s =>
      ret (String.concat sep
             (map (fun c => String c EmptyString)
                  (String.list_ascii_of_string s)))
  | PyList l =>
      match strings_of l with
      | Some ss => ret (String.concat sep ss)
      | None => raise TypeError
      end
  | _ => raise TypeError
  end.

(** [random.choice(seq)] *)
Definition random_choice {A} (seq : list A) : Lib A :=
  fun g =>
    match seq with
    | [] => (Raise IndexError, g)
    | x :: _ =>
        let r := hd 0 g in
        (Ok (nth (r mod length seq) seq x), tl g)
    end.

(** ** BaseProvider *)

Module BaseProvider.

Record t : Type := mk {
  settings : gmap string pyval;
  _ua_type : pyval
}.

Definition __init__ (settings : gmap string pyval) : M unit t :=
  ret {| settings := settings; _ua_type := PyNone |}.

End BaseProvider.

(** ** FixedUserAgentProvider *)

Module FixedUserAgentProvider.

Record t : Type := mk {
  settings : gmap string pyval;
  _ua_type : pyval;
  _ua : pyval
}.

Definition __init__ (settings : gmap string pyval) : M unit t :=
  base <- BaseProvider.__init__ settings ;;
  let fixed_ua := settings_get settings "USER_AGENT" (PyStr EmptyString) in
  ret {| settings := BaseProvider.settings base;
         _ua_type := BaseProvider._ua_type base;
         _ua := py_or fixed_ua (PyStr EmptyString) |}.

Definition get_random_ua : M t pyval :=
  self <- get_self ;;
  ret (_ua self).

End FixedUserAgentProvider.

(** ** FakeUserAgentProvider *)

(** The [fake_useragent] library: its [UserAgent] objects resolve every
    attribute through the library's own lookup, which picks at random and
    decides itself what an unknown name gives. *)
Class fake_useragent : Type := {
  FakeUA : Type;
  FakeUA_new : pyval -> Lib FakeUA;
  FakeUA_getattr : FakeUA -> string -> Lib pyval
}.

Module FakeUserAgentProvider.
Section WithLibrary.
Context `{fake_useragent}.

Record t : Type := mk {
  settings : gmap string pyval;
  _ua_type : pyval;
  _ua : FakeUA
}.

Definition DEFAULT_UA_TYPE : string := "random".

Definition __init__ (settings : gmap string pyval) : M unit t :=
  base <- BaseProvider.__init__ settings ;;
  let ua_type := settings_get settings "FAKE_USERAGENT_RANDOM_UA_TYPE"
                   (PyStr DEFAULT_UA_TYPE) in
  let fallback := settings_get settings "FAKEUSERAGENT_FALLBACK" PyNone in
  ua <- lib (FakeUA_new fallback) ;;
  ret {| settings := BaseProvider.settings base;
         _ua_type := ua_type;
         _ua := ua |}.

Definition get_random_ua : M t pyval :=
  self <- get_self ;;
  getattr (fun n => lib (FakeUA_getattr (_ua self) n)) (_ua_type self).

End WithLibrary.
End FakeUserAgentProvider.

(** ** FakerProvider *)

(** The [faker] library: a [Faker] object and the table of its attributes. *)
Class faker : Type := {
  Faker : Type;
  Faker_new : Lib Faker;
  Faker_attr : Faker -> string -> option pyattr
}.

Module FakerProvider.
Section WithLibrary.
Context `{faker}.

Record t : Type := mk {
  settings : gmap string pyval;
  _ua_type : pyval;
  _ua : Faker
}.

Definition DEFAULT_UA_TYPE : string := "user_agent".

Definition __init__ (settings : gmap string pyval) : M unit t :=
  base <- BaseProvider.__init__ settings ;;
  ua <- lib Faker_new ;;
  let ua_type := settings_get settings "FAKER_RANDOM_UA_TYPE"
                   (PyStr DEFAULT_UA_TYPE) in
  ret {| settings := BaseProvider.settings base;
         _ua_type := ua_type;
         _ua := ua |}.

Definition get_random_ua : M t pyval :=
  self <- get_self ;;
  try_except
    (m <- getattr (attr_of (Faker_attr (_ua self))) (_ua_type self) ;;
     call m)
    is_AttributeError
    (log DEBUG "Couldn't retrieve '%s' UA type. Using default: '%s'"
         [_ua_type self; PyStr DEFAULT_UA_TYPE] ;;;
     m <- getattr (attr_of (Faker_attr (_ua self)))
            (PyStr DEFAULT_UA_TYPE) ;;
     call m).

End WithLibrary.
End FakerProvider.

(** ** RandomUserAgentProvider *)

(** The six [Enum] classes of [random_user_agent.params]. *)
Inductive EnumClass : Type :=
| HardwareType
| SoftwareType
| SoftwareName
| SoftwareEngine
| OperatingSystem
| Popularity.

(** The [random_user_agent] library: the members of its [Enum] classes
    ([enum_member cls NAME] is the [value] of the member [cls.NAME]), and
    the dataset its catalog is built from. *)
Class random_user_agent : Type := {
  enum_member : EnumClass -> string -> option string;
  Entry : Type;
  entry_user_agent : Entry -> string;
  load_user_agents : list Entry;
  entry_matches : gmap string string -> Entry -> bool
}.

Module UserAgent.
Section WithLibrary.
Context `{random_user_agent}.

(** The backend catalog object and its candidate pool. *)
Record t : Type := mk {
  user_agents : list Entry
}.

(** Modelled from the spec: the constructor of the backend catalog
    [random_user_agent.user_agent.UserAgent], a third-party class that is
    not part of this repository.  The candidate pool is the list of
    dataset entries matching the filter parameter set, capped at [limit]
    entries when a limit is given. *)
Definition __init__ (params : gmap string string) (limit : option nat)
    : Lib t :=
  fun g =>
    let matching := List.filter (entry_matches params) load_user_agents in
    (Ok {| user_agents := match limit with
                          | Some n => take n matching
                          | None => matching
                          end |}, g).

(** Modelled from the spec: the backend's random pick, one entry of the
    candidate pool; on an empty pool the pick raises an index failure. *)
Definition get_random_user_agent (ua : t) : Lib pyval :=
  fun g =>
    match random_choice (user_agents ua) g with
    | (Ok e, g') => (Ok (PyStr (entry_user_agent e)), g')
    | (Raise x, g') => (Raise x, g')
    end.

(** Modelled from the spec: the methods [getattr] finds on the backend
    catalog object.  No attribute is named by the empty string. *)
Definition attr (ua : t) (name : string) : option pyattr :=
  if decide (name = "get_random_user_agent")
  then Some (Method (get_random_user_agent ua))
  else if decide (name = "get_user_agents")
  then Some (Method (fun g =>
               (Ok (PyList (map (fun e => PyStr (entry_user_agent e))
                                (user_agents ua))), g)))
  else None.

End WithLibrary.
End UserAgent.

Module RandomUserAgentProvider.
Section WithLibrary.
Context `{random_user_agent}.

Record t : Type := mk {
  settings : gmap string pyval;
  _ua_type : pyval;
  _ua : UserAgent.t
}.

Definition DEFAULT_UA_TYPE : string := EmptyString.

(** mapping Enum class - init params equivalence *)
Definition CLASS_MAP : gmap string EnumClass :=
  list_to_map
    [("hardware_types", HardwareType);
     ("software_types", SoftwareType);
     ("software_names", SoftwareName);
     ("software_engines", SoftwareEngine);
     ("operating_systems", OperatingSystem);
     ("popularity", Popularity)].

(** [d[k]] *)
Definition getitem {S V} (d : gmap string V) (k : string) : M S V :=
  match d !! k with
  | Some v => ret v
  | None => raise (KeyError k)
  end.

(** [v.items()] *)
Definition items {S} (v : pyval) : M S (list (string * pyval)) :=
  match v with
  | PyDict l => ret l
  | _ => raise AttributeError
  end.

(** [v.upper()] *)
Definition str_upper {S} (v : pyval) : M S string :=
  match v with
  | PyStr s => ret (upper s)
  | _ => raise AttributeError
  end.

(** The loop of [__init__] over the filters, from the pairs still to
    visit and the [params] collected so far. *)
Fixpoint collect_params {S} (filters : list (string * pyval))
    (params : gmap string string) : M S (gmap string string) :=
  match filters with
  | [] => ret params
  | (filter_cat, filter_value) :: rest =>
      cls <- getitem CLASS_MAP filter_cat ;;
      name <- str_upper filter_value ;;
      match enum_member cls name with
      | Some value => collect_params rest (<[filter_cat := value]> params)
      | None =>
          log ERROR "Error: Couldn't find a matching filter for '%s' "
              [filter_value] ;;;
          raise (Exception
                   [PyStr "Could'nt find a matching filter for: '%s' ";
                    filter_value])
      end
  end.

Definition __init__ (settings : gmap string pyval) : M unit t :=
  base <- BaseProvider.__init__ settings ;;
  let ua_type := settings_get settings "RANDOMUSERAGENT_RANDOM_UA_TYPE"
                   (PyStr DEFAULT_UA_TYPE) in
  filters <- items ua_type ;;
  params <- collect_params filters ∅ ;;
  ua <- lib (UserAgent.__init__ params (Some 100)) ;;
  ret {| settings := BaseProvider.settings base;
         _ua_type := ua_type;
         _ua := ua |}.

Definition get_random_ua : M t pyval :=
  self <- get_self ;;
  try_except
    (ua <- lib (UserAgent.get_random_user_agent (_ua self)) ;;
     let nb_ua := length (UserAgent.user_agents (_ua self)) in
     (if (nb_ua <? 100)%nat
      then
        criterions <- str_join " | " (_ua_type self) ;;
        log WARNING
          "Only '%s' UAs matched those criterions: '%s'. Try using less restrictive ones"
          [PyInt (Z.of_nat nb_ua); PyStr criterions]
      else ret tt) ;;;
     ret ua)
    is_IndexError
    (criterions <- str_join " | " (_ua_type self) ;;
     log DEBUG "Couldn't retrieve UA type matching those criterions: '%s'. "
         [PyStr "Beware of conflicting ones like 'ANDROID | COMPUTER' Using default: '%s'";
          PyStr criterions; PyStr DEFAULT_UA_TYPE] ;;;
     m <- getattr (attr_of (UserAgent.attr (_ua self)))
            (PyStr DEFAULT_UA_TYPE) ;;
     call m).

End WithLibrary.
End RandomUserAgentProvider.

(** ** Repeated calls *)

(** [n] calls of a method in a row, with the list of what they returned. *)
Fixpoint call_n {S A} (m : M S A) (n : nat) : M S (list A) :=
  match n with
  | O => ret []
  | S k =>
      a <- m ;;
      r <- call_n m k ;;
      ret (a :: r)
  end.

(** A method body that leaves the instance it runs on as it found it. *)
Definition preserves_self {S A} (m : M S A) : Prop :=
  forall w, self (snd (m w)) = self w.

(** ** Resolution of a configured filter pair *)

(** The backend code a configured [(category, value)] pair stands for: the
    value, in upper case, names a member of the category's Enum class. *)
Definition resolve `{random_user_agent} (filter_cat : string)
    (filter_value : pyval) : option string :=
  match RandomUserAgentProvider.CLASS_MAP !! filter_cat, filter_value with
  | Some cls, PyStr s => enum_member cls (upper s)
  | _, _ => None
  end.


(** A filter value with its letters in upper case, and a filter mapping
    with every value so rewritten. *)
Definition upper_value (v : pyval) : pyval :=
  match v with
  | PyStr s => PyStr (upper s)
  | _ => v
  end.

Definition upper_filters (filters : list (string * pyval))
    : list (string * pyval) :=
  map (fun pair => (pair.1, upper_value pair.2)) filters.

(** The user-agent strings of a catalog's candidate pool. *)
Definition pool_strings `{random_user_agent} (ua : UserAgent.t)
    : list pyval :=
  map (fun e => PyStr (entry_user_agent e)) (UserAgent.user_agents ua).

(** ** Sample libraries *)

Module Sample.

Definition ua_chrome : string :=
  "Mozilla/5.0 (Windows NT 10.0; Win64; x64) Chrome/120.0 Safari/537.36".
Definition ua_firefox : string :=
  "Mozilla/5.0 (X11; Linux x86_64; rv:121.0) Gecko/20100101 Firefox/121.0".
Definition ua_android : string :=
  "Mozilla/5.0 (Linux; Android 13; Pixel 7) Chrome/120.0 Mobile Safari/537.36".

(** A [fake_useragent] whose dataset knows three names; any other name
    fails to resolve. *)
#[local] Instance fake_useragent_lib : fake_useragent := {
  FakeUA := pyval;
  FakeUA_new := fun fallback g => (Ok fallback, g);
  FakeUA_getattr := fun _ name g =>
    if decide (name = "random")
    then match random_choice [ua_chrome; ua_firefox] g with
         | (Ok u, g') => (Ok (PyStr u), g')
         | (Raise e, g') => (Raise e, g')
         end
    else if decide (name = "chrome") then (Ok (PyStr ua_chrome), g)
    else if decide (name = "firefox") then (Ok (PyStr ua_firefox), g)
    else (Raise AttributeError, g)
}.

(** A [faker] with two generation methods. *)
#[local] Instance faker_lib : faker := {
  Faker := unit;
  Faker_new := fun g => (Ok tt, g);
  Faker_attr := fun _ name =>
    if decide (name = "user_agent")
    then Some (Method (fun g =>
                 match random_choice [ua_chrome; ua_firefox; ua_android] g with
                 | (Ok u, g') => (Ok (PyStr u), g')
                 | (Raise e, g') => (Raise e, g')
                 end))
    else if decide (name = "chrome")
    then Some (Method (fun g => (Ok (PyStr ua_chrome), g)))
    else None
}.

(** A [faker] whose generator may lack the user-agent provider ([false]),
    with a method that fails on an attribute of its own and a plain data
    attribute. *)
#[local] Instance partial_faker_lib : faker := {
  Faker := bool;
  Faker_new := fun g => (Ok true, g);
  Faker_attr := fun loaded name =>
    if decide (name = "user_agent")
    then if loaded
         then Some (Method (fun g =>
                      match random_choice [ua_chrome; ua_firefox] g with
                      | (Ok u, g') => (Ok (PyStr u), g')
                      | (Raise e, g') => (Raise e, g')
                      end))
         else None
    else if decide (name = "broken")
    then Some (Method (fun g => (Raise AttributeError, tl g)))
    else if decide (name = "file_path")
    then Some (Method (fun g => (Raise (LibraryError "ValueError"), tl g)))
    else if decide (name = "locales")
    then Some (Value (PyList [PyStr "en_US"]))
    else None
}.

(** One row of the catalog's dataset. *)
Record row : Type := mkRow {
  row_user_agent : string;
  row_hardware_type : string;
  row_operating_system : string
}.

Definition field_matches (params : gmap string string) (category : string)
    (field : string) : bool :=
  match params !! category with
  | Some code => String.eqb code field
  | None => true
  end.

(** A [random_user_agent] with a few members per Enum class and a dataset
    of 120 desktop rows followed by 2 mobile rows. *)
#[local] Instance random_user_agent_lib : random_user_agent := {
  enum_member := fun cls name =>
    match cls with
    | HardwareType =>
        if decide (name = "COMPUTER") then Some "computer"
        else if decide (name = "MOBILE") then Some "mobile"
        else None
    | OperatingSystem =>
        if decide (name = "WINDOWS") then Some "windows"
        else if decide (name = "LINUX") then Some "linux"
        else if decide (name = "ANDROID") then Some "android"
        else None
    | _ => None
    end;
  Entry := row;
  entry_user_agent := row_user_agent;
  load_user_agents :=
    replicate 60 (mkRow ua_chrome "computer" "windows") ++
    replicate 60 (mkRow ua_firefox "computer" "linux") ++
    replicate 2 (mkRow ua_android "mobile" "android");
  entry_matches := fun params e =>
    field_matches params "hardware_types" (row_hardware_type e) &&
    field_matches params "operating_systems" (row_operating_system e)
}.

Definition w0 : world unit := World tt [] [3; 1; 4; 1; 5].

Definition fixed_settings : gmap string pyval :=
  {[ "USER_AGENT" := PyStr "MyBot/1.0" ]}.

Definition filter_settings (filters : list (string * pyval))
    : gmap string pyval :=
  {[ "RANDOMUSERAGENT_RANDOM_UA_TYPE" := PyDict filters ]}.

End Sample.

(** * Properties *)

(** ** The monad's operations and the instance they run on *)

Lemma preserves_ret {S A} (a : A) : preserves_self (@ret S A a).
Proof. intros w. reflexivity. Qed.

Lemma preserves_raise {S A} (e : exn) : preserves_self (@raise S A e).
Proof. intros w. reflexivity. Qed.

Lemma preserves_get_self {S} : preserves_self (@get_self S).
Proof. intros w. reflexivity. Qed.

Lemma preserves_log {S} l f a : preserves_self (@log S l f a).
Proof. intros w. reflexivity. Qed.

Lemma preserves_lib {S A} (c : Lib A) : preserves_self (@lib S A c).
Proof. intros w. unfold lib. destruct (c (rng w)). reflexivity. Qed.

Lemma preserves_bind {S A B} (m : M S A) (k : A -> M S B) :
  preserves_self m -> (forall a, preserves_self (k a)) ->
  preserves_self (bind m k).
Proof.
  intros Hm Hk w. unfold bind.
  specialize (Hm w). destruct (m w) as [[a | e] w']; simpl in Hm.
  - rewrite Hk. exact Hm.
  - exact Hm.
Qed.

Lemma preserves_try_except {S A} (body handler : M S A) catches :
  preserves_self body -> preserves_self handler ->
  preserves_self (try_except body catches handler).
Proof.
  intros Hb Hh w. unfold try_except.
  specialize (Hb w). destruct (body w) as [[a | e] w']; simpl in Hb.
  - exact Hb.
  - destruct (catches e).
    + rewrite Hh. exact Hb.
    + exact Hb.
Qed.

Lemma preserves_getattr {S A} (lookup : string -> M S A) (name : pyval) :
  (forall n, preserves_self (lookup n)) ->
  preserves_self (getattr lookup name).
Proof.
  intros Hl. destruct name; simpl; auto using preserves_raise.
Qed.

Lemma preserves_attr_of {S} table n : preserves_self (@attr_of S table n).
Proof.
  unfold attr_of. destruct (table n); auto using preserves_ret, preserves_raise.
Qed.

Lemma preserves_call {S} (a : pyattr) : preserves_self (@call S a).
Proof.
  destruct a; simpl; auto using preserves_lib, preserves_raise.
Qed.

Lemma preserves_str_join {S} sep v : preserves_self (@str_join S sep v).
Proof.
  destruct v; simpl; auto using preserves_ret, preserves_raise.
  destruct (strings_of elems); auto using preserves_ret, preserves_raise.
Qed.

Create HintDb frame discriminated.
#[local] Hint Resolve preserves_ret preserves_raise preserves_get_self
  preserves_log preserves_lib preserves_attr_of preserves_call
  preserves_str_join : frame.
#[local] Hint Extern 2 (preserves_self (bind _ _)) =>
  apply preserves_bind; [ | intros ? ] : frame.
#[local] Hint Extern 2 (preserves_self (try_except _ _ _)) =>
  apply preserves_try_except : frame.
#[local] Hint Extern 2 (preserves_self (getattr _ _)) =>
  apply preserves_getattr; intros ? : frame.
#[local] Hint Extern 3 (preserves_self (if ?b then _ else _)) =>
  destruct b : frame.

Lemma call_n_preserves {S A} (m : M S A) (n : nat) :
  preserves_self m -> preserves_self (call_n m n).
Proof.
  intros Hm. induction n as [| k IH]; simpl; auto 10 with frame.
Qed.

(** A call that returns [a] and leaves the world alone can be repeated:
    [n] calls return [a] each and leave the world alone. *)
Lemma call_n_constant {S A} (m : M S A) (a : A) (w : world S) (n : nat) :
  m w = (Ok a, w) -> call_n m n w = (Ok (replicate n a), w).
Proof.
  intros Hm. induction n as [| k IH]; simpl.
  - reflexivity.
  - unfold bind. rewrite Hm, IH. reflexivity.
Qed.

(** ** FixedUserAgentProvider *)

Lemma fixed_init (settings : gmap string pyval) (w0 : world unit) :
  FixedUserAgentProvider.__init__ settings w0 =
  (Ok (FixedUserAgentProvider.mk settings PyNone
         (py_or (settings_get settings "USER_AGENT" (PyStr EmptyString))
                (PyStr EmptyString))), w0).
Proof. reflexivity. Qed.

Lemma py_or_str_empty (s : string) :
  py_or (PyStr s) (PyStr EmptyString) = PyStr s.
Proof.
  unfold py_or. simpl. destruct s; reflexivity.
Qed.

(** C5. Construction of a FixedUserAgentProvider always succeeds, and any
    number of calls of [get_random_ua] on the instance return, each, the
    string configured under [USER_AGENT] -- the empty string when the key
    is absent -- and change nothing. *)
Theorem fixed_get_random_ua_configured
    (settings : gmap string pyval) (w0 : world unit) :
  exists p,
    FixedUserAgentProvider.__init__ settings w0 = (Ok p, w0) /\
    forall (n : nat) (w : world FixedUserAgentProvider.t),
      self w = p ->
      (forall s, settings !! "USER_AGENT" = Some (PyStr s) ->
         call_n FixedUserAgentProvider.get_random_ua n w
         = (Ok (replicate n (PyStr s)), w)) /\
      (settings !! "USER_AGENT" = None ->
         call_n FixedUserAgentProvider.get_random_ua n w
         = (Ok (replicate n (PyStr EmptyString)), w)).
Proof.
  eexists. split; [apply fixed_init |].
  intros n w Hself. split.
  - intros s Hs. apply call_n_constant.
    unfold FixedUserAgentProvider.get_random_ua, bind, get_self, ret.
    rewrite Hself. simpl. unfold settings_get. rewrite Hs. simpl.
    rewrite py_or_str_empty. reflexivity.
  - intros Hnone. apply call_n_constant.
    unfold FixedUserAgentProvider.get_random_ua, bind, get_self, ret.
    rewrite Hself. simpl. unfold settings_get. rewrite Hnone. reflexivity.
Qed.

Lemma fixed_get_random_ua_configured_witness :
  exists p,
    FixedUserAgentProvider.__init__ Sample.fixed_settings Sample.w0
    = (Ok p, Sample.w0) /\
    call_n FixedUserAgentProvider.get_random_ua 3 (World p [] [])
    = (Ok (replicate 3 (PyStr "MyBot/1.0")), World p [] []) /\
    call_n FixedUserAgentProvider.get_random_ua 2
      (World (FixedUserAgentProvider.mk ∅ PyNone (PyStr EmptyString)) [] [])
    = (Ok (replicate 2 (PyStr EmptyString)),
       World (FixedUserAgentProvider.mk ∅ PyNone (PyStr EmptyString)) [] []).
Proof.
  destruct (fixed_get_random_ua_configured Sample.fixed_settings Sample.w0)
    as (p & Hinit & Hcalls).
  exists p. split; [exact Hinit |]. split.
  - destruct (Hcalls 3%nat (World p [] []) eq_refl) as [Hset _].
    apply Hset. reflexivity.
  - destruct (fixed_get_random_ua_configured ∅ Sample.w0)
      as (q & Hq & Hcalls').
    rewrite fixed_init in Hq. injection Hq as Hq.
    destruct (Hcalls' 2%nat (World q [] []) eq_refl) as [_ Habsent].
    rewrite <- Hq in Habsent. apply Habsent. reflexivity.
Defined.

(** ** FakeUserAgentProvider *)

Section FakeUserAgent.
Context `{fake_useragent}.

Lemma fake_init_fields settings (w0 w0' : world unit)
    (p : FakeUserAgentProvider.t) :
  FakeUserAgentProvider.__init__ settings w0 = (Ok p, w0') ->
  FakeUserAgentProvider._ua_type p
  = settings_get settings "FAKE_USERAGENT_RANDOM_UA_TYPE"
      (PyStr FakeUserAgentProvider.DEFAULT_UA_TYPE).
Proof.
  unfold FakeUserAgentProvider.__init__, BaseProvider.__init__, bind, ret,
    lib. simpl.
  destruct (FakeUA_new _ (rng w0)) as [[ua | e] g]; intros Heq;
    inversion Heq; reflexivity.
Qed.

Lemma fake_get_random_ua_eq (p : FakeUserAgentProvider.t) (name : string)
    (w : world FakeUserAgentProvider.t) :
  self w = p ->
  FakeUserAgentProvider._ua_type p = PyStr name ->
  FakeUserAgentProvider.get_random_ua w
  = lib (FakeUA_getattr (FakeUserAgentProvider._ua p) name) w.
Proof.
  intros Hself Htype.
  unfold FakeUserAgentProvider.get_random_ua, bind, get_self.
  rewrite Hself, Htype. reflexivity.
Qed.

End FakeUserAgent.

(** C3. A FakeUserAgentProvider's [get_random_ua] is the backend's
    resolution of the attribute named by the configured UA type: a value
    the backend gives is returned, and a failure of the backend to resolve
    the name reaches the caller as it is -- nothing is caught, nothing is
    logged, no other name is tried. *)
Theorem fake_get_random_ua_is_backend_attribute
    `{fake_useragent} (settings : gmap string pyval) (w0 w0' : world unit)
    (p : FakeUserAgentProvider.t) (name : string)
    (w : world FakeUserAgentProvider.t) :
  FakeUserAgentProvider.__init__ settings w0 = (Ok p, w0') ->
  settings_get settings "FAKE_USERAGENT_RANDOM_UA_TYPE" (PyStr "random")
  = PyStr name ->
  self w = p ->
  (forall v g',
     FakeUA_getattr (FakeUserAgentProvider._ua p) name (rng w) = (Ok v, g') ->
     FakeUserAgentProvider.get_random_ua w = (Ok v, World p (logger w) g')) /\
  (forall e g',
     FakeUA_getattr (FakeUserAgentProvider._ua p) name (rng w)
     = (Raise e, g') ->
     FakeUserAgentProvider.get_random_ua w
     = (Raise e, World p (logger w) g')).
Proof.
  intros Hinit Hname Hself.
  apply fake_init_fields in Hinit.
  unfold FakeUserAgentProvider.DEFAULT_UA_TYPE in Hinit.
  rewrite Hname in Hinit.
  split; intros r g' Hback;
    rewrite (fake_get_random_ua_eq p name w Hself Hinit);
    unfold lib; rewrite Hback, Hself; reflexivity.
Qed.

Lemma fake_get_random_ua_is_backend_attribute_witness :
  let settings : gmap string pyval :=
    {[ "FAKE_USERAGENT_RANDOM_UA_TYPE" := PyStr "chrome" ]} in
  let bad : gmap string pyval :=
    {[ "FAKE_USERAGENT_RANDOM_UA_TYPE" := PyStr "netscape" ]} in
  let p := FakeUserAgentProvider.mk (H := Sample.fake_useragent_lib)
             settings (PyStr "chrome") PyNone in
  let q := FakeUserAgentProvider.mk (H := Sample.fake_useragent_lib)
             bad (PyStr "netscape") PyNone in
  FakeUserAgentProvider.get_random_ua (World p [] [7])
  = (Ok (PyStr Sample.ua_chrome), World p [] [7]) /\
  FakeUserAgentProvider.get_random_ua (World q [] [7])
  = (Raise AttributeError, World q [] [7]).
Proof.
  intros settings bad p q. split.
  - apply (fake_get_random_ua_is_backend_attribute
             (H := Sample.fake_useragent_lib)
             settings Sample.w0 Sample.w0 p "chrome" (World p [] [7]));
      reflexivity.
  - apply (fake_get_random_ua_is_backend_attribute
             (H := Sample.fake_useragent_lib)
             bad Sample.w0 Sample.w0 q "netscape" (World q [] [7]));
      reflexivity.
Defined.

(** ** FakerProvider *)

Section FakerLemmas.
Context `{faker}.

Lemma faker_init_fields settings (w0 w0' : world unit)
    (p : FakerProvider.t) :
  FakerProvider.__init__ settings w0 = (Ok p, w0') ->
  FakerProvider._ua_type p
  = settings_get settings "FAKER_RANDOM_UA_TYPE" (PyStr "user_agent").
Proof.
  unfold FakerProvider.__init__, BaseProvider.__init__, bind, ret, lib.
  simpl.
  destruct (Faker_new (rng w0)) as [[ua | e] g]; intros Heq;
    inversion Heq; reflexivity.
Qed.

(** The configured name does not resolve: the handler runs. *)
Lemma faker_unsupported (p : FakerProvider.t) (name : string)
    (l : list LogRecord) (g : Rng) :
  FakerProvider._ua_type p = PyStr name ->
  Faker_attr (FakerProvider._ua p) name = None ->
  FakerProvider.get_random_ua (World p l g)
  = (m <- getattr (attr_of (Faker_attr (FakerProvider._ua p)))
            (PyStr "user_agent") ;;
     call m)
      (World p
         (l ++ [mkLog DEBUG
                  "Couldn't retrieve '%s' UA type. Using default: '%s'"
                  [PyStr name; PyStr "user_agent"]]) g).
Proof.
  intros Htype Hnone.
  unfold FakerProvider.get_random_ua, bind, get_self, try_except. simpl.
  rewrite Htype. simpl. unfold attr_of. rewrite Hnone. reflexivity.
Qed.

(** A name that resolves to a method: the outcome is the method's,
    unless the method itself raises an attribute failure. *)
Lemma faker_supported (p : FakerProvider.t) (name : string)
    (f : Lib pyval) (v : pyval) (l : list LogRecord) (g g' : Rng) :
  FakerProvider._ua_type p = PyStr name ->
  Faker_attr (FakerProvider._ua p) name = Some (Method f) ->
  f g = (Ok v, g') ->
  FakerProvider.get_random_ua (World p l g) = (Ok v, World p l g').
Proof.
  intros Htype Hsome Hf.
  unfold FakerProvider.get_random_ua, bind, get_self, try_except. simpl.
  rewrite Htype. simpl. unfold attr_of. rewrite Hsome. simpl.
  unfold lib. simpl. rewrite Hf. reflexivity.
Qed.

End FakerLemmas.

(** C4. A FakerProvider configured with a method name its backend does
    not have answers every call as a FakerProvider configured with
    [user_agent] does, on the same backend and the same random state: the
    call logs one record at debug level and returns the string the default
    method gives; it does not fail.  The default method is taken to be
    present and to return a string. *)
Theorem faker_fallback_equivalence
    `{faker} (s1 s2 : gmap string pyval) (w1 w1' w2 w2' : world unit)
    (p1 p2 : FakerProvider.t) (name : string) (default_method : Lib pyval) :
  FakerProvider.__init__ s1 w1 = (Ok p1, w1') ->
  FakerProvider.__init__ s2 w2 = (Ok p2, w2') ->
  s1 !! "FAKER_RANDOM_UA_TYPE" = Some (PyStr name) ->
  s2 !! "FAKER_RANDOM_UA_TYPE" = Some (PyStr "user_agent") ->
  FakerProvider._ua p1 = FakerProvider._ua p2 ->
  Faker_attr (FakerProvider._ua p1) name = None ->
  Faker_attr (FakerProvider._ua p1) "user_agent"
  = Some (Method default_method) ->
  (forall g, exists s g', default_method g = (Ok (PyStr s), g')) ->
  forall (l : list LogRecord) (g : Rng),
  exists s g',
    FakerProvider.get_random_ua (World p1 l g)
    = (Ok (PyStr s),
       World p1
         (l ++ [mkLog DEBUG
                  "Couldn't retrieve '%s' UA type. Using default: '%s'"
                  [PyStr name; PyStr "user_agent"]]) g') /\
    FakerProvider.get_random_ua (World p2 l g) = (Ok (PyStr s), World p2 l g').
Proof.
  intros Hinit1 Hinit2 Hs1 Hs2 Hsame Hnone Hdefault Htotal l g.
  apply faker_init_fields in Hinit1, Hinit2.
  unfold settings_get in Hinit1, Hinit2.
  rewrite Hs1 in Hinit1. rewrite Hs2 in Hinit2. simpl in Hinit1, Hinit2.
  destruct (Htotal g) as (s & g' & Hcall).
  exists s, g'. split.
  - rewrite (faker_unsupported p1 name l g Hinit1 Hnone).
    unfold bind, getattr, attr_of. rewrite Hdefault. simpl.
    unfold lib. simpl. rewrite Hcall. reflexivity.
  - rewrite Hsame in Hdefault.
    apply (faker_supported p2 "user_agent" default_method _ l g g'
             Hinit2 Hdefault Hcall).
Qed.

Lemma faker_fallback_equivalence_witness :
  let s1 : gmap string pyval :=
    {[ "FAKER_RANDOM_UA_TYPE" := PyStr "netscape" ]} in
  let s2 : gmap string pyval :=
    {[ "FAKER_RANDOM_UA_TYPE" := PyStr "user_agent" ]} in
  let p1 := FakerProvider.mk (H := Sample.faker_lib)
              s1 (PyStr "netscape") tt in
  let p2 := FakerProvider.mk (H := Sample.faker_lib)
              s2 (PyStr "user_agent") tt in
  exists s g',
    FakerProvider.get_random_ua (World p1 [] [4; 2])
    = (Ok (PyStr s),
       World p1
         [mkLog DEBUG "Couldn't retrieve '%s' UA type. Using default: '%s'"
            [PyStr "netscape"; PyStr "user_agent"]] g') /\
    FakerProvider.get_random_ua (World p2 [] [4; 2])
    = (Ok (PyStr s), World p2 [] g').
Proof.
  intros s1 s2 p1 p2.
  refine (faker_fallback_equivalence (H := Sample.faker_lib)
            s1 s2 Sample.w0 Sample.w0 Sample.w0 Sample.w0 p1 p2 "netscape"
            (fun g =>
               match random_choice
                       [Sample.ua_chrome; Sample.ua_firefox; Sample.ua_android]
                       g with
               | (Ok u, g') => (Ok (PyStr u), g')
               | (Raise e, g') => (Raise e, g')
               end)
            _ _ _ _ _ _ _ _ [] [4; 2]%nat);
    try reflexivity.
  intros g. simpl. eexists. eexists. reflexivity.
Defined.

(** ** RandomUserAgentProvider: construction *)

Section RandomUserAgentLemmas.
Context `{random_user_agent}.

Local Notation "'KEY'" := "RANDOMUSERAGENT_RANDOM_UA_TYPE" (only parsing).
Local Notation "'pool_of' params" :=
  (UserAgent.mk (take 100 (List.filter (entry_matches params)
                             load_user_agents)))
  (at level 10, params at level 9, only parsing).

(** [__init__], once the configured filters are known to be a dict: the
    outcome of the loop decides. *)
Lemma random_init_dict settings (filters : list (string * pyval))
    (w0 : world unit) :
  settings_get settings KEY (PyStr EmptyString) = PyDict filters ->
  RandomUserAgentProvider.__init__ settings w0
  = match RandomUserAgentProvider.collect_params filters ∅ w0 with
    | (Ok params, w') =>
        (Ok (RandomUserAgentProvider.mk settings (PyDict filters)
               (pool_of params)), w')
    | (Raise e, w') => (Raise e, w')
    end.
Proof.
  intros Hget.
  unfold RandomUserAgentProvider.__init__, BaseProvider.__init__.
  unfold RandomUserAgentProvider.DEFAULT_UA_TYPE. rewrite Hget.
  unfold bind, ret, RandomUserAgentProvider.items, lib. simpl.
  destruct (RandomUserAgentProvider.collect_params filters ∅ w0)
    as [[params | e] [[] l g]]; reflexivity.
Qed.

(** A successful construction went through the loop. *)
Lemma random_init_inv settings (w0 w0' : world unit)
    (p : RandomUserAgentProvider.t) :
  RandomUserAgentProvider.__init__ settings w0 = (Ok p, w0') ->
  exists filters params,
    settings_get settings KEY (PyStr EmptyString) = PyDict filters /\
    RandomUserAgentProvider.collect_params filters ∅ w0 = (Ok params, w0') /\
    p = RandomUserAgentProvider.mk settings (PyDict filters) (pool_of params).
Proof.
  intros Hinit.
  destruct (settings_get settings KEY (PyStr EmptyString))
    as [| b | n | s | elems | filters] eqn:Hget;
    try (unfold RandomUserAgentProvider.__init__, BaseProvider.__init__,
           RandomUserAgentProvider.DEFAULT_UA_TYPE in Hinit;
         rewrite Hget in Hinit; discriminate Hinit).
  rewrite (random_init_dict settings filters w0 Hget) in Hinit.
  destruct (RandomUserAgentProvider.collect_params filters ∅ w0)
    as [[params | e] w'] eqn:Hloop; [| discriminate Hinit].
  inversion Hinit; subst. exists filters, params. auto.
Qed.

(** One turn of the loop on a pair that resolves. *)
Lemma collect_params_resolved {S} c v code rest params (w : world S) :
  resolve c v = Some code ->
  RandomUserAgentProvider.collect_params ((c, v) :: rest) params w
  = RandomUserAgentProvider.collect_params rest (<[c := code]> params) w.
Proof.
  unfold resolve. intros Hres. simpl.
  unfold bind at 1. unfold RandomUserAgentProvider.getitem.
  destruct (RandomUserAgentProvider.CLASS_MAP !! c) as [cls |];
    [| discriminate Hres].
  destruct v; try discriminate Hres. simpl.
  unfold bind at 1. simpl. rewrite Hres. reflexivity.
Qed.

(** One turn of the loop on a pair of a known category whose value names
    no member: the error is logged and the exception raised. *)
Lemma collect_params_unresolved {S} c s cls rest params (w : world S) :
  RandomUserAgentProvider.CLASS_MAP !! c = Some cls ->
  enum_member cls (upper s) = None ->
  RandomUserAgentProvider.collect_params ((c, PyStr s) :: rest) params w
  = (Raise (Exception
              [PyStr "Could'nt find a matching filter for: '%s' ";
               PyStr s]),
     World (self w)
       (logger w ++
        [mkLog ERROR "Error: Couldn't find a matching filter for '%s' "
           [PyStr s]])
       (rng w)).
Proof.
  intros Hcls Hnone. simpl.
  unfold bind at 1. unfold RandomUserAgentProvider.getitem.
  rewrite Hcls. simpl. unfold bind at 1. simpl. rewrite Hnone.
  reflexivity.
Qed.

(** One turn of the loop on a pair of an unknown category. *)
Lemma collect_params_unknown {S} c v rest params (w : world S) :
  RandomUserAgentProvider.CLASS_MAP !! c = None ->
  RandomUserAgentProvider.collect_params ((c, v) :: rest) params w
  = (Raise (KeyError c), w).
Proof.
  intros Hcls. simpl.
  unfold bind at 1. unfold RandomUserAgentProvider.getitem.
  rewrite Hcls. reflexivity.
Qed.

(** When every pair resolves, the loop ends with the code of each
    configured category, and nothing else. *)
Lemma collect_params_all_resolved {S} filters :
  NoDup (map fst filters) ->
  Forall (fun pair => is_Some (resolve pair.1 pair.2)) filters ->
  forall params (w : world S),
  exists params',
    RandomUserAgentProvider.collect_params filters params w
    = (Ok params', w) /\
    (forall c v, (c, v) ∈ filters -> params' !! c = resolve c v) /\
    (forall c, c ∉ map fst filters -> params' !! c = params !! c).
Proof.
  induction filters as [| [c v] rest IH]; intros Hnodup Hall params w.
  - exists params. split; [reflexivity |]. split; [| reflexivity].
    intros c v Hin. inversion Hin.
  - simpl in Hnodup. apply NoDup_cons in Hnodup as [Hfresh Hnodup].
    apply Forall_cons in Hall as [[code Hcode] Hall]. simpl in Hcode.
    destruct (IH Hnodup Hall (<[c := code]> params) w)
      as (params' & Hrun & Hin & Hout).
    exists params'. split; [| split].
    + rewrite (collect_params_resolved c v code rest params w Hcode).
      exact Hrun.
    + intros c' v' Hmem. apply elem_of_cons in Hmem as [Heq | Hmem].
      * inversion Heq; subst. rewrite (Hout c Hfresh).
        rewrite lookup_insert_eq. symmetry. exact Hcode.
      * apply Hin. exact Hmem.
    + intros c' Hnot. simpl in Hnot. apply not_elem_of_cons in Hnot
        as [Hne Hnot].
      rewrite (Hout c' Hnot). apply lookup_insert_ne. congruence.
Qed.


End RandomUserAgentLemmas.

(** ** RandomUserAgentProvider: calls *)

Section RandomUserAgentCalls.
Context `{random_user_agent}.

(** The call when the backend's pick succeeds: the picked entry is
    returned, after a warning when the pool holds fewer than 100 entries. *)
Lemma random_get_picked (p : RandomUserAgentProvider.t) filters
    (l : list LogRecord) (g g' : Rng) (v : pyval) :
  RandomUserAgentProvider._ua_type p = PyDict filters ->
  UserAgent.get_random_user_agent (RandomUserAgentProvider._ua p) g
  = (Ok v, g') ->
  RandomUserAgentProvider.get_random_ua (World p l g)
  = (Ok v,
     World p
       (let nb_ua :=
          length (UserAgent.user_agents (RandomUserAgentProvider._ua p)) in
        if (nb_ua <? 100)%nat
        then l ++ [mkLog WARNING
                     "Only '%s' UAs matched those criterions: '%s'. Try using less restrictive ones"
                     [PyInt (Z.of_nat nb_ua);
                      PyStr (String.concat " | " (map fst filters))]]
        else l)
       g').
Proof.
  intros Htype Hpick.
  unfold RandomUserAgentProvider.get_random_ua, bind, get_self, try_except,
    lib. simpl.
  rewrite Hpick, Htype. simpl.
  destruct (length (UserAgent.user_agents (RandomUserAgentProvider._ua p))
            <? 100)%nat; reflexivity.
Qed.

(** The pick on an empty pool. *)
Lemma pick_empty (ua : UserAgent.t) (g : Rng) :
  UserAgent.user_agents ua = [] ->
  UserAgent.get_random_user_agent ua g = (Raise IndexError, g).
Proof.
  intros Hempty. unfold UserAgent.get_random_user_agent. rewrite Hempty.
  reflexivity.
Qed.

(** The pick on a pool that is not empty succeeds. *)
Lemma pick_nonempty (ua : UserAgent.t) (g : Rng) :
  UserAgent.user_agents ua <> [] ->
  exists e,
    e ∈ UserAgent.user_agents ua /\
    UserAgent.get_random_user_agent ua g
    = (Ok (PyStr (entry_user_agent e)), tl g).
Proof.
  intros Hne. unfold UserAgent.get_random_user_agent, random_choice.
  destruct (UserAgent.user_agents ua) as [| x rest] eqn:Hpool;
    [congruence |].
  eexists. split; [| reflexivity].
  apply list_elem_of_In. apply nth_In.
  apply Nat.mod_upper_bound. discriminate.
Qed.

(** The call when the pool is empty: the handler logs at debug level and
    looks up the attribute named by [DEFAULT_UA_TYPE], which the backend
    does not have. *)
Lemma random_get_empty (p : RandomUserAgentProvider.t) filters
    (l : list LogRecord) (g : Rng) :
  RandomUserAgentProvider._ua_type p = PyDict filters ->
  UserAgent.user_agents (RandomUserAgentProvider._ua p) = [] ->
  RandomUserAgentProvider.get_random_ua (World p l g)
  = (Raise AttributeError,
     World p
       (l ++ [mkLog DEBUG
                "Couldn't retrieve UA type matching those criterions: '%s'. "
                [PyStr "Beware of conflicting ones like 'ANDROID | COMPUTER' Using default: '%s'";
                 PyStr (String.concat " | " (map fst filters));
                 PyStr EmptyString]])
       g).
Proof.
  intros Htype Hempty.
  unfold RandomUserAgentProvider.get_random_ua, bind, get_self, try_except,
    lib. simpl.
  rewrite (pick_empty _ g Hempty), Htype. reflexivity.
Qed.

End RandomUserAgentCalls.

(** ** RandomUserAgentProvider: the claims *)



Section RandomUserAgentOrder.
Context `{random_user_agent}.

(** The pairs ahead of a given one, when they all resolve, only add to
    [params]: the loop reaches the given pair in the same world. *)
Lemma collect_params_prefix {S} pre rest :
  Forall (fun pair => is_Some (resolve pair.1 pair.2)) pre ->
  forall params (w : world S),
  exists params',
    RandomUserAgentProvider.collect_params (pre ++ rest) params w
    = RandomUserAgentProvider.collect_params rest params' w.
Proof.
  induction pre as [| [c v] pre IH]; intros Hall params w.
  - exists params. reflexivity.
  - apply Forall_cons in Hall as [[code Hcode] Hall]. simpl in Hcode.
    destruct (IH Hall (<[c := code]> params) w) as [params' Hrun].
    exists params'. simpl app.
    rewrite (collect_params_resolved c v code _ params w Hcode).
    exact Hrun.
Qed.

(** A filter of an unknown category anywhere in the mapping makes the
    loop fail, at that pair or at an earlier one. *)
Lemma collect_params_unknown_fails {S} filters :
  Exists (fun pair => RandomUserAgentProvider.CLASS_MAP !! pair.1 = None)
    filters ->
  forall params (w : world S),
  exists e w',
    RandomUserAgentProvider.collect_params filters params w = (Raise e, w').
Proof.
  induction filters as [| [c v] rest IH]; intros Hex params w.
  - inversion Hex.
  - destruct (RandomUserAgentProvider.CLASS_MAP !! c) as [cls |] eqn:Hcls.
    + apply Exists_cons in Hex as [Hhead | Htail];
        [simpl in Hhead; congruence |].
      destruct v as [| b | n | s | elems | items];
        try (eexists; eexists; simpl; unfold bind at 1;
             unfold RandomUserAgentProvider.getitem; rewrite Hcls;
             reflexivity).
      destruct (enum_member cls (upper s)) as [code |] eqn:Hmember.
      * assert (Hres : resolve c (PyStr s) = Some code)
          by (unfold resolve; rewrite Hcls; exact Hmember).
        rewrite (collect_params_resolved c (PyStr s) code rest params w Hres).
        apply IH. exact Htail.
      * eexists. eexists.
        apply collect_params_unresolved with cls; assumption.
    + eexists. eexists. apply collect_params_unknown. exact Hcls.
Qed.

End RandomUserAgentOrder.

(** C10, as the code has it.  A filter mapping with a key outside the six
    categories makes construction fail.  When every pair ahead of such a
    key resolves, the failure is the key-lookup error for that key, raised
    with nothing logged; a pair ahead of it that fails decides otherwise. *)
Theorem random_init_unknown_category
    `{random_user_agent} (settings : gmap string pyval)
    (filters : list (string * pyval)) (w0 : world unit) :
  settings !! "RANDOMUSERAGENT_RANDOM_UA_TYPE" = Some (PyDict filters) ->
  Exists (fun pair => RandomUserAgentProvider.CLASS_MAP !! pair.1 = None)
    filters ->
  (exists e w0',
     RandomUserAgentProvider.__init__ settings w0 = (Raise e, w0')) /\
  (forall (pre post : list (string * pyval)) (c : string) (v : pyval),
     filters = (pre ++ (c, v) :: post)%list ->
     RandomUserAgentProvider.CLASS_MAP !! c = None ->
     Forall (fun pair => is_Some (resolve pair.1 pair.2)) pre ->
     RandomUserAgentProvider.__init__ settings w0 = (Raise (KeyError c), w0)).
Proof.
  intros Hkey Hex.
  assert (Hget : settings_get settings "RANDOMUSERAGENT_RANDOM_UA_TYPE"
                   (PyStr EmptyString) = PyDict filters)
    by (unfold settings_get; rewrite Hkey; reflexivity).
  split.
  - destruct (collect_params_unknown_fails filters Hex ∅ w0)
      as (e & w' & Hrun).
    exists e, w'.
    rewrite (random_init_dict settings filters w0 Hget), Hrun. reflexivity.
  - intros pre post c v Hsplit Hcls Hpre.
    destruct (collect_params_prefix pre ((c, v) :: post) Hpre ∅ w0)
      as [params' Hrun].
    rewrite (random_init_dict settings filters w0 Hget), Hsplit, Hrun.
    rewrite (collect_params_unknown c v post params' w0 Hcls). reflexivity.
Qed.

Lemma random_init_unknown_category_witness :
  let filters := [("hardware_types", PyStr "mobile"); ("browsers", PyStr "x")] in
  RandomUserAgentProvider.__init__ (H := Sample.random_user_agent_lib)
    (Sample.filter_settings filters) Sample.w0
  = (Raise (KeyError "browsers"), Sample.w0).
Proof.
  intros filters.
  destruct (random_init_unknown_category (H := Sample.random_user_agent_lib)
              (Sample.filter_settings filters) filters Sample.w0)
    as [_ Hfirst].
  - reflexivity.
  - apply Exists_cons_tl, Exists_cons_hd. reflexivity.
  - apply (Hfirst [("hardware_types", PyStr "mobile")] [] "browsers"
             (PyStr "x")).
    + reflexivity.
    + reflexivity.
    + repeat constructor; simpl; eexists; reflexivity.
Defined.

(** C10 as worded fails: with an unresolvable value ahead of the unknown
    key, construction takes the documented path -- the error is logged and
    [Exception] raised -- and no key-lookup error occurs. *)
Lemma random_init_unknown_category_counterexample :
  let filters := [("hardware_types", PyStr "toaster"); ("browsers", PyStr "x")] in
  Exists (fun pair => RandomUserAgentProvider.CLASS_MAP !! pair.1 = None)
    filters /\
  RandomUserAgentProvider.__init__ (H := Sample.random_user_agent_lib)
    (Sample.filter_settings filters) Sample.w0
  = (Raise (Exception
              [PyStr "Could'nt find a matching filter for: '%s' ";
               PyStr "toaster"]),
     World tt
       [mkLog ERROR "Error: Couldn't find a matching filter for '%s' "
          [PyStr "toaster"]]
       [3; 1; 4; 1; 5]%nat) /\
  ~ (exists k w0',
       RandomUserAgentProvider.__init__ (H := Sample.random_user_agent_lib)
         (Sample.filter_settings filters) Sample.w0
       = (Raise (KeyError k), w0') /\
       logger w0' = logger Sample.w0).
Proof.
  intros filters.
  assert (Hrun :
    RandomUserAgentProvider.__init__ (H := Sample.random_user_agent_lib)
      (Sample.filter_settings filters) Sample.w0
    = (Raise (Exception
                [PyStr "Could'nt find a matching filter for: '%s' ";
                 PyStr "toaster"]),
       World tt
         [mkLog ERROR "Error: Couldn't find a matching filter for '%s' "
            [PyStr "toaster"]]
         [3; 1; 4; 1; 5]%nat)) by reflexivity.
  split; [| split].
  - apply Exists_cons_tl, Exists_cons_hd. reflexivity.
  - exact Hrun.
  - intros (k & w0' & Hinit & _).
    rewrite Hrun in Hinit. inversion Hinit.
Qed.

(** C6, on the code.  With the filters key absent, [__init__] takes
    [DEFAULT_UA_TYPE], the empty string, for the filters and asks it for
    [items()]: construction raises an attribute failure.  The claim expects
    the empty mapping and a successful construction. *)
Theorem random_init_absent_key_raises
    `{random_user_agent} (settings : gmap string pyval) (w0 : world unit) :
  settings !! "RANDOMUSERAGENT_RANDOM_UA_TYPE" = None ->
  RandomUserAgentProvider.__init__ settings w0 = (Raise AttributeError, w0).
Proof.
  intros Hkey.
  unfold RandomUserAgentProvider.__init__, BaseProvider.__init__, settings_get.
  rewrite Hkey. reflexivity.
Qed.

Lemma random_init_absent_key_raises_witness :
  RandomUserAgentProvider.__init__ (H := Sample.random_user_agent_lib)
    ∅ Sample.w0
  = (Raise AttributeError, Sample.w0).
Proof.
  apply (random_init_absent_key_raises (H := Sample.random_user_agent_lib)
           ∅ Sample.w0).
  reflexivity.
Defined.

(** C7. A constructed RandomUserAgentProvider holds the catalog the
    backend built from the collected parameters under the limit 100, and
    its candidate pool has at most 100 entries, at construction and after
    any call of [get_random_ua]. *)
Theorem random_pool_capped
    `{random_user_agent} (settings : gmap string pyval) (w0 w0' : world unit)
    (p : RandomUserAgentProvider.t) :
  RandomUserAgentProvider.__init__ settings w0 = (Ok p, w0') ->
  (exists params,
     UserAgent.__init__ params (Some 100%nat) (rng w0')
     = (Ok (RandomUserAgentProvider._ua p), rng w0')) /\
  (length (UserAgent.user_agents (RandomUserAgentProvider._ua p)) <= 100)%nat /\
  (forall w : world RandomUserAgentProvider.t,
     self w = p ->
     (length (UserAgent.user_agents
                (RandomUserAgentProvider._ua
                   (self (snd (RandomUserAgentProvider.get_random_ua w)))))
      <= 100)%nat).
Proof.
  intros Hinit.
  destruct (random_init_inv settings w0 w0' p Hinit)
    as (filters & params & _ & _ & Hp).
  assert (Hlen : (length (UserAgent.user_agents
                            (RandomUserAgentProvider._ua p)) <= 100)%nat).
  { subst p. simpl. rewrite length_take. lia. }
  split; [| split].
  - exists params. subst p. reflexivity.
  - exact Hlen.
  - intros w Hself.
    assert (Hframe : preserves_self RandomUserAgentProvider.get_random_ua).
    { unfold RandomUserAgentProvider.get_random_ua. auto 12 with frame. }
    rewrite Hframe, Hself. exact Hlen.
Qed.

Lemma random_pool_capped_witness :
  let p := RandomUserAgentProvider.mk (H := Sample.random_user_agent_lib)
             (Sample.filter_settings []) (PyDict [])
             (UserAgent.mk
                (take 100 (List.filter (entry_matches ∅) load_user_agents))) in
  length (load_user_agents (random_user_agent := Sample.random_user_agent_lib))
  = 122%nat /\
  (length (UserAgent.user_agents (RandomUserAgentProvider._ua p)) <= 100)%nat.
Proof.
  intros p. split; [reflexivity |].
  apply (random_pool_capped (H := Sample.random_user_agent_lib)
           (Sample.filter_settings []) Sample.w0 Sample.w0 p).
  rewrite (random_init_dict (H := Sample.random_user_agent_lib)
             (Sample.filter_settings []) [] Sample.w0 eq_refl).
  reflexivity.
Defined.

(** C8. When the backend's pick succeeds, [get_random_ua] returns the
    picked entry and leaves the random state where the pick left it.  With
    fewer than 100 entries in the pool, the call logs one warning, with the
    pool size and the configured categories; with a full pool it logs
    nothing.  The value returned is the same either way. *)
Theorem random_small_pool_warning
    `{random_user_agent} (settings : gmap string pyval) (w0 w0' : world unit)
    (p : RandomUserAgentProvider.t) (l : list LogRecord) (g g' : Rng)
    (v : pyval) :
  RandomUserAgentProvider.__init__ settings w0 = (Ok p, w0') ->
  UserAgent.get_random_user_agent (RandomUserAgentProvider._ua p) g
  = (Ok v, g') ->
  exists filters,
    settings !! "RANDOMUSERAGENT_RANDOM_UA_TYPE" = Some (PyDict filters) /\
    ((length (UserAgent.user_agents (RandomUserAgentProvider._ua p)) < 100)%nat ->
     RandomUserAgentProvider.get_random_ua (World p l g)
     = (Ok v,
        World p
          (l ++ [mkLog WARNING
                   "Only '%s' UAs matched those criterions: '%s'. Try using less restrictive ones"
                   [PyInt (Z.of_nat
                             (length (UserAgent.user_agents
                                        (RandomUserAgentProvider._ua p))));
                    PyStr (String.concat " | " (map fst filters))]])
          g')) /\
    ((100 <= length (UserAgent.user_agents (RandomUserAgentProvider._ua p)))%nat ->
     RandomUserAgentProvider.get_random_ua (World p l g)
     = (Ok v, World p l g')).
Proof.
  intros Hinit Hpick.
  destruct (random_init_inv settings w0 w0' p Hinit)
    as (filters & params & Hget & _ & Hp).
  assert (Htype : RandomUserAgentProvider._ua_type p = PyDict filters)
    by (subst p; reflexivity).
  exists filters. split; [| split].
  - unfold settings_get in Hget.
    destruct (settings !! "RANDOMUSERAGENT_RANDOM_UA_TYPE") as [x |];
      simpl in Hget; [congruence | discriminate Hget].
  - intros Hsmall.
    rewrite (random_get_picked p filters l g g' v Htype Hpick). simpl.
    apply Nat.ltb_lt in Hsmall. rewrite Hsmall. reflexivity.
  - intros Hfull.
    rewrite (random_get_picked p filters l g g' v Htype Hpick). simpl.
    apply Nat.ltb_ge in Hfull. rewrite Hfull. reflexivity.
Qed.

Lemma random_small_pool_warning_witness :
  let filters := [("hardware_types", PyStr "mobile")] in
  let p := RandomUserAgentProvider.mk (H := Sample.random_user_agent_lib)
             (Sample.filter_settings filters) (PyDict filters)
             (UserAgent.mk
                (take 100
                   (List.filter
                      (entry_matches (<["hardware_types" := "mobile"]> ∅))
                      load_user_agents))) in
  RandomUserAgentProvider.get_random_ua (World p [] [5])
  = (Ok (PyStr Sample.ua_android),
     World p
       [mkLog WARNING
          "Only '%s' UAs matched those criterions: '%s'. Try using less restrictive ones"
          [PyInt 2; PyStr "hardware_types"]]
       []).
Proof.
  intros filters p.
  destruct (random_small_pool_warning (H := Sample.random_user_agent_lib)
              (Sample.filter_settings filters) Sample.w0 Sample.w0 p
              [] [5]%nat [] (PyStr Sample.ua_android))
    as (filters' & Hkey & Hsmall & _).
  - rewrite (random_init_dict (H := Sample.random_user_agent_lib)
               (Sample.filter_settings filters) filters Sample.w0 eq_refl).
    reflexivity.
  - reflexivity.
  - assert (Hsame : filters' = filters).
    { assert (Hkey' : Sample.filter_settings filters
                      !! "RANDOMUSERAGENT_RANDOM_UA_TYPE"
                      = Some (PyDict filters)) by reflexivity.
      rewrite Hkey' in Hkey. inversion Hkey. reflexivity. }
    subst filters'. apply Hsmall. apply Nat.ltb_lt. reflexivity.
Defined.

(** C1, on the code.  On a constructed RandomUserAgentProvider whose
    candidate pool is empty, the backend's pick raises an index failure;
    [get_random_ua] catches it, logs at debug level, then asks the backend
    for the attribute named by [DEFAULT_UA_TYPE], the empty string, which
    does not exist: the call raises an attribute failure to its caller.
    The claim expects a string and no error. *)
Theorem random_empty_pool_raises
    `{random_user_agent} (settings : gmap string pyval) (w0 w0' : world unit)
    (p : RandomUserAgentProvider.t) (l : list LogRecord) (g : Rng) :
  RandomUserAgentProvider.__init__ settings w0 = (Ok p, w0') ->
  UserAgent.user_agents (RandomUserAgentProvider._ua p) = [] ->
  exists filters,
    settings !! "RANDOMUSERAGENT_RANDOM_UA_TYPE" = Some (PyDict filters) /\
    UserAgent.get_random_user_agent (RandomUserAgentProvider._ua p) g
    = (Raise IndexError, g) /\
    RandomUserAgentProvider.get_random_ua (World p l g)
    = (Raise AttributeError,
       World p
         (l ++ [mkLog DEBUG
                  "Couldn't retrieve UA type matching those criterions: '%s'. "
                  [PyStr "Beware of conflicting ones like 'ANDROID | COMPUTER' Using default: '%s'";
                   PyStr (String.concat " | " (map fst filters));
                   PyStr EmptyString]])
         g).
Proof.
  intros Hinit Hempty.
  destruct (random_init_inv settings w0 w0' p Hinit)
    as (filters & params & Hget & _ & Hp).
  assert (Htype : RandomUserAgentProvider._ua_type p = PyDict filters)
    by (subst p; reflexivity).
  exists filters. split; [| split].
  - unfold settings_get in Hget.
    destruct (settings !! "RANDOMUSERAGENT_RANDOM_UA_TYPE") as [x |];
      simpl in Hget; [congruence | discriminate Hget].
  - apply pick_empty. exact Hempty.
  - apply random_get_empty; assumption.
Qed.

Lemma random_empty_pool_raises_witness :
  let filters := [("hardware_types", PyStr "computer");
                  ("operating_systems", PyStr "android")] in
  let p := RandomUserAgentProvider.mk (H := Sample.random_user_agent_lib)
             (Sample.filter_settings filters) (PyDict filters)
             (UserAgent.mk []) in
  RandomUserAgentProvider.__init__ (H := Sample.random_user_agent_lib)
    (Sample.filter_settings filters) Sample.w0 = (Ok p, Sample.w0) /\
  RandomUserAgentProvider.get_random_ua (World p [] [5])
  = (Raise AttributeError,
     World p
       [mkLog DEBUG
          "Couldn't retrieve UA type matching those criterions: '%s'. "
          [PyStr "Beware of conflicting ones like 'ANDROID | COMPUTER' Using default: '%s'";
           PyStr "hardware_types | operating_systems";
           PyStr EmptyString]]
       [5]).
Proof.
  intros filters p.
  assert (Hinit :
    RandomUserAgentProvider.__init__ (H := Sample.random_user_agent_lib)
      (Sample.filter_settings filters) Sample.w0 = (Ok p, Sample.w0))
    by reflexivity.
  split; [exact Hinit |].
  destruct (random_empty_pool_raises (H := Sample.random_user_agent_lib)
              (Sample.filter_settings filters) Sample.w0 Sample.w0 p
              [] [5]%nat Hinit eq_refl)
    as (filters' & Hkey & _ & Hcall).
  assert (Hsame : filters' = filters).
  { assert (Hkey' : Sample.filter_settings filters
                    !! "RANDOMUSERAGENT_RANDOM_UA_TYPE"
                    = Some (PyDict filters)) by reflexivity.
    rewrite Hkey' in Hkey. inversion Hkey. reflexivity. }
  subst filters'. exact Hcall.
Defined.

(** C9. For each of the four providers, a call of [get_random_ua] leaves
    the instance it is called on as it was, whatever the call returns or
    raises: only the log and the random state may differ afterwards. *)
Theorem get_random_ua_preserves_instance :
  (forall w : world FixedUserAgentProvider.t,
     self (snd (FixedUserAgentProvider.get_random_ua w)) = self w) /\
  (forall (L : fake_useragent) (w : world FakeUserAgentProvider.t),
     self (snd (FakeUserAgentProvider.get_random_ua w)) = self w) /\
  (forall (L : faker) (w : world FakerProvider.t),
     self (snd (FakerProvider.get_random_ua w)) = self w) /\
  (forall (L : random_user_agent) (w : world RandomUserAgentProvider.t),
     self (snd (RandomUserAgentProvider.get_random_ua w)) = self w).
Proof.
  split; [| split; [| split]]; intros.
  - revert w. change (preserves_self FixedUserAgentProvider.get_random_ua).
    unfold FixedUserAgentProvider.get_random_ua. auto 12 with frame.
  - revert w. change (preserves_self FakeUserAgentProvider.get_random_ua).
    unfold FakeUserAgentProvider.get_random_ua. auto 12 with frame.
  - revert w. change (preserves_self FakerProvider.get_random_ua).
    unfold FakerProvider.get_random_ua. auto 12 with frame.
  - revert w. change (preserves_self RandomUserAgentProvider.get_random_ua).
    unfold RandomUserAgentProvider.get_random_ua. auto 12 with frame.
Qed.

(** * Further properties of the providers *)

(** ** FixedUserAgentProvider: values that are not strings *)

(** X1. Whatever [USER_AGENT] holds, a FixedUserAgentProvider returns it
    when it is truthy and the empty string when it is falsy ([None], [0],
    [False], an empty string, list or dict): the call never returns
    [None]. *)
Theorem fixed_get_random_ua_falsy
    (settings : gmap string pyval) (v : pyval) (w0 w0' : world unit)
    (p : FixedUserAgentProvider.t) (w : world FixedUserAgentProvider.t) :
  settings !! "USER_AGENT" = Some v ->
  FixedUserAgentProvider.__init__ settings w0 = (Ok p, w0') ->
  self w = p ->
  exists r,
    FixedUserAgentProvider.get_random_ua w = (Ok r, w) /\
    r <> PyNone /\
    (truthy v = true -> r = v) /\
    (truthy v = false -> r = PyStr EmptyString).
Proof.
  intros Hkey Hinit Hself.
  rewrite fixed_init in Hinit. inversion Hinit as [[Hp Hw]]. clear Hinit.
  unfold settings_get in Hp. rewrite Hkey in Hp. simpl in Hp.
  exists (py_or v (PyStr EmptyString)). split; [| split; [| split]].
  - unfold FixedUserAgentProvider.get_random_ua, bind, get_self, ret.
    rewrite Hself, <- Hp. reflexivity.
  - unfold py_or. destruct (truthy v) eqn:Ht.
    + intros Hv. subst v. discriminate Ht.
    + discriminate.
  - intros Ht. unfold py_or. rewrite Ht. reflexivity.
  - intros Hf. unfold py_or. rewrite Hf. reflexivity.
Qed.

Lemma fixed_get_random_ua_falsy_witness :
  let settings : gmap string pyval := {[ "USER_AGENT" := PyNone ]} in
  let p := FixedUserAgentProvider.mk settings PyNone (PyStr EmptyString) in
  FixedUserAgentProvider.get_random_ua (World p [] [])
  = (Ok (PyStr EmptyString), World p [] []).
Proof.
  intros settings p.
  destruct (fixed_get_random_ua_falsy settings PyNone Sample.w0 Sample.w0 p
              (World p [] []) eq_refl eq_refl eq_refl)
    as (r & Hcall & _ & _ & Hfalsy).
  rewrite Hcall, (Hfalsy eq_refl). reflexivity.
Defined.

(** ** FakeUserAgentProvider: construction *)

(** X2. A FakeUserAgentProvider is built exactly when the backend's
    constructor, given the configured [FAKEUSERAGENT_FALLBACK] ([None] when
    absent), returns: the provider holds that backend object and the
    configured UA type, nothing is logged; when the constructor raises,
    construction raises the same exception. *)
Theorem fake_init_follows_backend
    `{fake_useragent} (settings : gmap string pyval) (w0 : world unit) :
  (forall ua g,
     FakeUA_new (settings_get settings "FAKEUSERAGENT_FALLBACK" PyNone)
       (rng w0) = (Ok ua, g) ->
     FakeUserAgentProvider.__init__ settings w0
     = (Ok (FakeUserAgentProvider.mk settings
              (settings_get settings "FAKE_USERAGENT_RANDOM_UA_TYPE"
                 (PyStr "random")) ua),
        World (self w0) (logger w0) g)) /\
  (forall e g,
     FakeUA_new (settings_get settings "FAKEUSERAGENT_FALLBACK" PyNone)
       (rng w0) = (Raise e, g) ->
     FakeUserAgentProvider.__init__ settings w0
     = (Raise e, World (self w0) (logger w0) g)).
Proof.
  split; intros r g Hnew;
    unfold FakeUserAgentProvider.__init__, BaseProvider.__init__, bind, ret,
      lib; simpl; rewrite Hnew; reflexivity.
Qed.

Lemma fake_init_follows_backend_witness :
  let settings : gmap string pyval :=
    {[ "FAKEUSERAGENT_FALLBACK" := PyStr "curl/8.0" ]} in
  FakeUserAgentProvider.__init__ (H := Sample.fake_useragent_lib)
    settings Sample.w0
  = (Ok (FakeUserAgentProvider.mk (H := Sample.fake_useragent_lib)
           settings (PyStr "random") (PyStr "curl/8.0")),
     Sample.w0).
Proof.
  intros settings.
  destruct (fake_init_follows_backend (H := Sample.fake_useragent_lib)
              settings Sample.w0) as [Hok _].
  apply (Hok (PyStr "curl/8.0") [3; 1; 4; 1; 5]%nat). reflexivity.
Defined.

(** X3. With [FAKE_USERAGENT_RANDOM_UA_TYPE] absent, every call of a
    constructed FakeUserAgentProvider is the backend's resolution of the
    attribute [random], value or failure, with nothing logged. *)
Theorem fake_default_type_is_random
    `{fake_useragent} (settings : gmap string pyval) (w0 w0' : world unit)
    (p : FakeUserAgentProvider.t) (l : list LogRecord) (g : Rng) :
  settings !! "FAKE_USERAGENT_RANDOM_UA_TYPE" = None ->
  FakeUserAgentProvider.__init__ settings w0 = (Ok p, w0') ->
  FakeUserAgentProvider.get_random_ua (World p l g)
  = (fst (FakeUA_getattr (FakeUserAgentProvider._ua p) "random" g),
     World p l (snd (FakeUA_getattr (FakeUserAgentProvider._ua p) "random" g))).
Proof.
  intros Hkey Hinit.
  apply fake_init_fields in Hinit.
  unfold settings_get in Hinit. rewrite Hkey in Hinit. simpl in Hinit.
  rewrite (fake_get_random_ua_eq p "random" (World p l g) eq_refl Hinit).
  unfold lib. simpl.
  destruct (FakeUA_getattr (FakeUserAgentProvider._ua p) "random" g).
  reflexivity.
Qed.

Lemma fake_default_type_is_random_witness :
  let p := FakeUserAgentProvider.mk (H := Sample.fake_useragent_lib)
             ∅ (PyStr "random") PyNone in
  FakeUserAgentProvider.get_random_ua (World p [] [1; 0])
  = (Ok (PyStr Sample.ua_firefox), World p [] [0]).
Proof.
  intros p.
  apply (fake_default_type_is_random (H := Sample.fake_useragent_lib)
           ∅ Sample.w0 Sample.w0 p [] [1; 0]%nat); reflexivity.
Defined.

(** ** FakerProvider: the other paths of a call *)

Section FakerPaths.
Context `{faker}.

(** The call when the configured name resolves to a method: the method
    runs, and only an attribute failure of the method reaches the handler. *)
Lemma faker_method_outcome (p : FakerProvider.t) (name : string)
    (f : Lib pyval) (l : list LogRecord) (g : Rng) :
  FakerProvider._ua_type p = PyStr name ->
  Faker_attr (FakerProvider._ua p) name = Some (Method f) ->
  FakerProvider.get_random_ua (World p l g)
  = match f g with
    | (Raise AttributeError, g') =>
        (m <- getattr (attr_of (Faker_attr (FakerProvider._ua p)))
                (PyStr "user_agent") ;;
         call m)
          (World p
             (l ++ [mkLog DEBUG
                      "Couldn't retrieve '%s' UA type. Using default: '%s'"
                      [PyStr name; PyStr "user_agent"]]) g')
    | (r, g') => (r, World p l g')
    end.
Proof.
  intros Htype Hattr.
  unfold FakerProvider.get_random_ua, bind, get_self, try_except. simpl.
  rewrite Htype. simpl. unfold attr_of. rewrite Hattr. simpl.
  unfold lib. simpl.
  destruct (f g) as [[v | []] g']; reflexivity.
Qed.

End FakerPaths.

(** X4. When the configured method exists, a FakerProvider's call is that
    method's outcome with nothing logged: its value, or any exception of
    its own other than an attribute failure, which reaches the caller. *)
Theorem faker_supported_method_outcome
    `{faker} (settings : gmap string pyval) (w0 w0' : world unit)
    (p : FakerProvider.t) (name : string) (f : Lib pyval)
    (l : list LogRecord) (g g' : Rng) (r : result pyval) :
  FakerProvider.__init__ settings w0 = (Ok p, w0') ->
  settings_get settings "FAKER_RANDOM_UA_TYPE" (PyStr "user_agent")
  = PyStr name ->
  Faker_attr (FakerProvider._ua p) name = Some (Method f) ->
  f g = (r, g') ->
  r <> Raise AttributeError ->
  FakerProvider.get_random_ua (World p l g) = (r, World p l g').
Proof.
  intros Hinit Hname Hattr Hcall Hnot.
  apply faker_init_fields in Hinit. rewrite Hname in Hinit.
  rewrite (faker_method_outcome p name f l g Hinit Hattr), Hcall.
  destruct r as [v | e]; [reflexivity |].
  destruct e; try reflexivity. congruence.
Qed.

Lemma faker_supported_method_outcome_witness :
  let settings : gmap string pyval :=
    {[ "FAKER_RANDOM_UA_TYPE" := PyStr "file_path" ]} in
  let p := FakerProvider.mk (H := Sample.partial_faker_lib)
             settings (PyStr "file_path") true in
  FakerProvider.get_random_ua (World p [] [2; 7])
  = (Raise (LibraryError "ValueError"), World p [] [7]).
Proof.
  intros settings p.
  apply (faker_supported_method_outcome (H := Sample.partial_faker_lib)
           settings Sample.w0 Sample.w0 p "file_path"
           (fun g => (Raise (LibraryError "ValueError"), tl g)));
    try reflexivity.
  discriminate.
Defined.

(** X5. An attribute failure raised inside the configured method is
    handled like a missing method: one debug record is logged and the
    default method runs, from the random state the failed method left; its
    outcome, value or exception, is the call's. *)
Theorem faker_method_attribute_failure_falls_back
    `{faker} (p : FakerProvider.t) (name : string) (f d : Lib pyval)
    (l : list LogRecord) (g g' g'' : Rng) (r : result pyval) :
  FakerProvider._ua_type p = PyStr name ->
  Faker_attr (FakerProvider._ua p) name = Some (Method f) ->
  Faker_attr (FakerProvider._ua p) "user_agent" = Some (Method d) ->
  f g = (Raise AttributeError, g') ->
  d g' = (r, g'') ->
  FakerProvider.get_random_ua (World p l g)
  = (r,
     World p
       (l ++ [mkLog DEBUG
                "Couldn't retrieve '%s' UA type. Using default: '%s'"
                [PyStr name; PyStr "user_agent"]]) g'').
Proof.
  intros Htype Hattr Hdefault Hf Hd.
  rewrite (faker_method_outcome p name f l g Htype Hattr), Hf.
  unfold bind, getattr, attr_of. rewrite Hdefault. simpl.
  unfold lib. simpl. rewrite Hd. reflexivity.
Qed.

Lemma faker_method_attribute_failure_falls_back_witness :
  let p := FakerProvider.mk (H := Sample.partial_faker_lib)
             ∅ (PyStr "broken") true in
  FakerProvider.get_random_ua (World p [] [9; 1; 6])
  = (Ok (PyStr Sample.ua_firefox),
     World p
       [mkLog DEBUG "Couldn't retrieve '%s' UA type. Using default: '%s'"
          [PyStr "broken"; PyStr "user_agent"]]
       [6]).
Proof.
  intros p.
  apply (faker_method_attribute_failure_falls_back
           (H := Sample.partial_faker_lib) p "broken"
           (fun g => (Raise AttributeError, tl g))
           (fun g =>
              match random_choice [Sample.ua_chrome; Sample.ua_firefox] g with
              | (Ok u, g') => (Ok (PyStr u), g')
              | (Raise e, g') => (Raise e, g')
              end)
           [] [9; 1; 6]%nat [1; 6]%nat [6]%nat);
    reflexivity.
Defined.

(** X6. When the backend has neither the configured method nor
    [user_agent], the call logs its debug record and raises an attribute
    failure to the caller: the handler's own lookup is not guarded. *)
Theorem faker_fallback_missing_raises
    `{faker} (p : FakerProvider.t) (name : string)
    (l : list LogRecord) (g : Rng) :
  FakerProvider._ua_type p = PyStr name ->
  Faker_attr (FakerProvider._ua p) name = None ->
  Faker_attr (FakerProvider._ua p) "user_agent" = None ->
  FakerProvider.get_random_ua (World p l g)
  = (Raise AttributeError,
     World p
       (l ++ [mkLog DEBUG
                "Couldn't retrieve '%s' UA type. Using default: '%s'"
                [PyStr name; PyStr "user_agent"]]) g).
Proof.
  intros Htype Hnone Hdefault.
  rewrite (faker_unsupported p name l g Htype Hnone).
  unfold bind, getattr, attr_of. rewrite Hdefault. reflexivity.
Qed.

Lemma faker_fallback_missing_raises_witness :
  let p := FakerProvider.mk (H := Sample.partial_faker_lib)
             ∅ (PyStr "chrome") false in
  FakerProvider.get_random_ua (World p [] [9])
  = (Raise AttributeError,
     World p
       [mkLog DEBUG "Couldn't retrieve '%s' UA type. Using default: '%s'"
          [PyStr "chrome"; PyStr "user_agent"]]
       [9]).
Proof.
  intros p.
  apply (faker_fallback_missing_raises (H := Sample.partial_faker_lib)
           p "chrome" [] [9]%nat); reflexivity.
Defined.

(** X7. A type failure is not handled: when the configured UA type is not
    a string, or names an attribute of the backend that is plain data, the
    call raises [TypeError] with nothing logged, no fallback tried and no
    random draw made. *)
Theorem faker_type_error_propagates
    `{faker} (p : FakerProvider.t) (l : list LogRecord) (g : Rng) :
  ((forall s, FakerProvider._ua_type p <> PyStr s) ->
   FakerProvider.get_random_ua (World p l g)
   = (Raise TypeError, World p l g)) /\
  (forall name v,
     FakerProvider._ua_type p = PyStr name ->
     Faker_attr (FakerProvider._ua p) name = Some (Value v) ->
     FakerProvider.get_random_ua (World p l g)
     = (Raise TypeError, World p l g)).
Proof.
  split.
  - intros Hnot.
    unfold FakerProvider.get_random_ua, bind, get_self, try_except. simpl.
    destruct (FakerProvider._ua_type p) as [| b | n | s | elems | items];
      try reflexivity.
    exfalso. apply (Hnot s). reflexivity.
  - intros name v Htype Hattr.
    unfold FakerProvider.get_random_ua, bind, get_self, try_except. simpl.
    rewrite Htype. simpl. unfold attr_of. rewrite Hattr. reflexivity.
Qed.

Lemma faker_type_error_propagates_witness :
  let p := FakerProvider.mk (H := Sample.partial_faker_lib)
             ∅ (PyList [PyStr "chrome"]) true in
  let q := FakerProvider.mk (H := Sample.partial_faker_lib)
             ∅ (PyStr "locales") true in
  FakerProvider.get_random_ua (World p [] [9])
  = (Raise TypeError, World p [] [9]) /\
  FakerProvider.get_random_ua (World q [] [9])
  = (Raise TypeError, World q [] [9]).
Proof.
  intros p q. split.
  - destruct (faker_type_error_propagates (H := Sample.partial_faker_lib)
                p [] [9]%nat) as [Hnot _].
    apply Hnot. intros s. discriminate.
  - destruct (faker_type_error_propagates (H := Sample.partial_faker_lib)
                q [] [9]%nat) as [_ Hdata].
    apply (Hdata "locales" (PyList [PyStr "en_US"])); reflexivity.
Defined.

(** ** RandomUserAgentProvider: the loop, pair by pair *)

Lemma ascii_upper_idem (c : ascii) : ascii_upper (ascii_upper c) = ascii_upper c.
Proof.
  destruct c as [[] [] [] [] [] [] [] []]; reflexivity.
Qed.

Lemma upper_idem (s : string) : upper (upper s) = upper s.
Proof.
  induction s as [| c r IH]; simpl.
  - reflexivity.
  - rewrite ascii_upper_idem, IH. reflexivity.
Qed.

Section RandomUserAgentLoop.
Context `{random_user_agent}.

(** One turn of the loop, in full. *)
Lemma collect_params_step {S} c v rest params (w : world S) :
  RandomUserAgentProvider.collect_params ((c, v) :: rest) params w
  = match RandomUserAgentProvider.CLASS_MAP !! c with
    | None => (Raise (KeyError c), w)
    | Some cls =>
        match v with
        | PyStr s =>
            match enum_member cls (upper s) with
            | Some code =>
                RandomUserAgentProvider.collect_params rest
                  (<[c := code]> params) w
            | None =>
                (Raise (Exception
                          [PyStr "Could'nt find a matching filter for: '%s' ";
                           PyStr s]),
                 World (self w)
                   (logger w ++
                    [mkLog ERROR
                       "Error: Couldn't find a matching filter for '%s' "
                       [PyStr s]])
                   (rng w))
            end
        | _ => (Raise AttributeError, w)
        end
    end.
Proof.
  simpl. unfold bind at 1. unfold RandomUserAgentProvider.getitem.
  destruct (RandomUserAgentProvider.CLASS_MAP !! c) as [cls |];
    [| reflexivity].
  simpl. destruct v; try reflexivity.
  simpl. unfold bind at 1. simpl.
  destruct (enum_member cls (upper s)); reflexivity.
Qed.


(** Upper-casing the configured values beforehand changes nothing to a
    loop that succeeds. *)
Lemma collect_params_upper {S} filters :
  forall params (w w' : world S) params',
  RandomUserAgentProvider.collect_params (upper_filters filters) params w
  = (Ok params', w')
  <-> RandomUserAgentProvider.collect_params filters params w
      = (Ok params', w').
Proof.
  induction filters as [| [c v] rest IH]; intros params w w' params'.
  - reflexivity.
  - unfold upper_filters. simpl map. fold (upper_filters rest).
    rewrite !collect_params_step.
    destruct (RandomUserAgentProvider.CLASS_MAP !! c) as [cls |];
      [| reflexivity].
    destruct v as [| b | n | s | elems | items]; simpl; try reflexivity.
    rewrite upper_idem.
    destruct (enum_member cls (upper s)) as [code |];
      [| split; intros Hx; discriminate Hx].
    apply IH.
Qed.


End RandomUserAgentLoop.




(** X9. The case of the configured filter values does not matter: a
    mapping and the same mapping with its values in upper case either both
    fail to construct or both construct, and then with the same catalog. *)
Theorem random_filter_values_case_insensitive
    `{random_user_agent} (s1 s2 : gmap string pyval)
    (filters : list (string * pyval)) (w0 w0' : world unit) :
  s1 !! "RANDOMUSERAGENT_RANDOM_UA_TYPE" = Some (PyDict filters) ->
  s2 !! "RANDOMUSERAGENT_RANDOM_UA_TYPE"
  = Some (PyDict (upper_filters filters)) ->
  (forall p1,
     RandomUserAgentProvider.__init__ s1 w0 = (Ok p1, w0') ->
     exists p2,
       RandomUserAgentProvider.__init__ s2 w0 = (Ok p2, w0') /\
       RandomUserAgentProvider._ua p2 = RandomUserAgentProvider._ua p1) /\
  (forall p2,
     RandomUserAgentProvider.__init__ s2 w0 = (Ok p2, w0') ->
     exists p1,
       RandomUserAgentProvider.__init__ s1 w0 = (Ok p1, w0') /\
       RandomUserAgentProvider._ua p1 = RandomUserAgentProvider._ua p2).
Proof.
  intros Hk1 Hk2.
  assert (Hg1 : settings_get s1 "RANDOMUSERAGENT_RANDOM_UA_TYPE"
                  (PyStr EmptyString) = PyDict filters)
    by (unfold settings_get; rewrite Hk1; reflexivity).
  assert (Hg2 : settings_get s2 "RANDOMUSERAGENT_RANDOM_UA_TYPE"
                  (PyStr EmptyString) = PyDict (upper_filters filters))
    by (unfold settings_get; rewrite Hk2; reflexivity).
  rewrite (random_init_dict s1 filters w0 Hg1).
  rewrite (random_init_dict s2 (upper_filters filters) w0 Hg2).
  split.
  - intros p1 Hinit.
    destruct (RandomUserAgentProvider.collect_params filters ∅ w0)
      as [[params | e] w'] eqn:Hrun; [| discriminate Hinit].
    inversion Hinit; subst.
    apply (proj2 (collect_params_upper filters ∅ w0 w0' params)) in Hrun.
    rewrite Hrun. eexists. split; reflexivity.
  - intros p2 Hinit.
    destruct (RandomUserAgentProvider.collect_params (upper_filters filters)
                ∅ w0) as [[params | e] w'] eqn:Hrun; [| discriminate Hinit].
    inversion Hinit; subst.
    apply (proj1 (collect_params_upper filters ∅ w0 w0' params)) in Hrun.
    rewrite Hrun. eexists. split; reflexivity.
Qed.

Lemma random_filter_values_case_insensitive_witness :
  let filters := [("operating_systems", PyStr "Windows")] in
  exists p2,
    RandomUserAgentProvider.__init__ (H := Sample.random_user_agent_lib)
      (Sample.filter_settings [("operating_systems", PyStr "WINDOWS")])
      Sample.w0 = (Ok p2, Sample.w0) /\
    length (UserAgent.user_agents (RandomUserAgentProvider._ua p2)) = 60%nat.
Proof.
  intros filters.
  destruct (random_filter_values_case_insensitive
              (H := Sample.random_user_agent_lib)
              (Sample.filter_settings filters)
              (Sample.filter_settings (upper_filters filters))
              filters Sample.w0 Sample.w0 eq_refl eq_refl) as [Hup _].
  destruct (Hup _ eq_refl) as (p2 & Hinit & Hua).
  exists p2. split; [exact Hinit |]. rewrite Hua. reflexivity.
Defined.



(** X11. A filter value that is not a string, under a known category and
    with every pair ahead of it resolving, makes construction raise an
    attribute failure with nothing logged: the value is upper-cased
    unguarded, off the documented error path. *)
Theorem random_init_non_string_value
    `{random_user_agent} (settings : gmap string pyval)
    (pre post : list (string * pyval)) (c : string) (v : pyval)
    (w0 : world unit) :
  settings !! "RANDOMUSERAGENT_RANDOM_UA_TYPE"
  = Some (PyDict (pre ++ (c, v) :: post)%list) ->
  Forall (fun pair => is_Some (resolve pair.1 pair.2)) pre ->
  is_Some (RandomUserAgentProvider.CLASS_MAP !! c) ->
  (forall s, v <> PyStr s) ->
  RandomUserAgentProvider.__init__ settings w0 = (Raise AttributeError, w0).
Proof.
  intros Hkey Hpre [cls Hcls] Hv.
  assert (Hget : settings_get settings "RANDOMUSERAGENT_RANDOM_UA_TYPE"
                   (PyStr EmptyString) = PyDict (pre ++ (c, v) :: post)%list)
    by (unfold settings_get; rewrite Hkey; reflexivity).
  destruct (collect_params_prefix pre ((c, v) :: post) Hpre ∅ w0)
    as [params' Hrun].
  rewrite (random_init_dict settings _ w0 Hget), Hrun.
  rewrite collect_params_step, Hcls.
  destruct v as [| b | n | s | elems | items]; try reflexivity.
  exfalso. apply (Hv s). reflexivity.
Qed.

Lemma random_init_non_string_value_witness :
  let filters := [("hardware_types", PyStr "mobile");
                  ("popularity", PyList [PyStr "common"])] in
  RandomUserAgentProvider.__init__ (H := Sample.random_user_agent_lib)
    (Sample.filter_settings filters) Sample.w0
  = (Raise AttributeError, Sample.w0).
Proof.
  intros filters.
  apply (random_init_non_string_value (H := Sample.random_user_agent_lib)
           (Sample.filter_settings filters)
           [("hardware_types", PyStr "mobile")] []
           "popularity" (PyList [PyStr "common"]) Sample.w0).
  - reflexivity.
  - repeat constructor; simpl; eexists; reflexivity.
  - eexists. reflexivity.
  - intros s. discriminate.
Defined.

(** X12. The order of the categories in the mapping does not matter when
    every pair resolves: two mappings with the same pairs construct, and
    hand the catalog the same parameters, so the two providers hold the
    same catalog. *)
Theorem random_filter_order_irrelevant
    `{random_user_agent} (s1 s2 : gmap string pyval)
    (f1 f2 : list (string * pyval)) (w0 : world unit) :
  s1 !! "RANDOMUSERAGENT_RANDOM_UA_TYPE" = Some (PyDict f1) ->
  s2 !! "RANDOMUSERAGENT_RANDOM_UA_TYPE" = Some (PyDict f2) ->
  Permutation f1 f2 ->
  NoDup (map fst f1) ->
  Forall (fun pair => is_Some (resolve pair.1 pair.2)) f1 ->
  exists p1 p2,
    RandomUserAgentProvider.__init__ s1 w0 = (Ok p1, w0) /\
    RandomUserAgentProvider.__init__ s2 w0 = (Ok p2, w0) /\
    RandomUserAgentProvider._ua p1 = RandomUserAgentProvider._ua p2.
Proof.
  intros Hk1 Hk2 Hperm Hnodup Hall.
  assert (Hg1 : settings_get s1 "RANDOMUSERAGENT_RANDOM_UA_TYPE"
                  (PyStr EmptyString) = PyDict f1)
    by (unfold settings_get; rewrite Hk1; reflexivity).
  assert (Hg2 : settings_get s2 "RANDOMUSERAGENT_RANDOM_UA_TYPE"
                  (PyStr EmptyString) = PyDict f2)
    by (unfold settings_get; rewrite Hk2; reflexivity).
  assert (Hnodup2 : NoDup (map fst f2))
    by (rewrite <- (Permutation_map fst Hperm); exact Hnodup).
  assert (Hall2 : Forall (fun pair => is_Some (resolve pair.1 pair.2)) f2)
    by (rewrite <- Hperm; exact Hall).
  destruct (collect_params_all_resolved f1 Hnodup Hall ∅ w0)
    as (params1 & Hrun1 & Hin1 & Hout1).
  destruct (collect_params_all_resolved f2 Hnodup2 Hall2 ∅ w0)
    as (params2 & Hrun2 & Hin2 & Hout2).
  assert (Hsame : params1 = params2).
  { apply map_eq. intros c.
    destruct (decide (c ∈ map fst f1)) as [Hc | Hc].
    - apply list_elem_of_In, in_map_iff in Hc as ([c' v] & Heq & Hin).
      simpl in Heq. subst c'.
      rewrite (Hin1 c v) by (apply list_elem_of_In; exact Hin).
      rewrite (Hin2 c v)
        by (apply list_elem_of_In; eapply Permutation_in; eassumption).
      reflexivity.
    - rewrite (Hout1 c Hc). rewrite Hout2; [reflexivity |].
      intros Hc2. apply Hc.
      apply list_elem_of_In. apply list_elem_of_In in Hc2.
      eapply Permutation_in; [| exact Hc2].
      apply Permutation_map. symmetry. exact Hperm. }
  eexists. eexists.
  rewrite (random_init_dict s1 f1 w0 Hg1), Hrun1.
  rewrite (random_init_dict s2 f2 w0 Hg2), Hrun2.
  split; [reflexivity |]. split; [reflexivity |].
  simpl. rewrite Hsame. reflexivity.
Qed.

Lemma random_filter_order_irrelevant_witness :
  let f1 := [("hardware_types", PyStr "computer");
             ("operating_systems", PyStr "linux")] in
  let f2 := [("operating_systems", PyStr "linux");
             ("hardware_types", PyStr "computer")] in
  exists p1 p2,
    RandomUserAgentProvider.__init__ (H := Sample.random_user_agent_lib)
      (Sample.filter_settings f1) Sample.w0 = (Ok p1, Sample.w0) /\
    RandomUserAgentProvider.__init__ (H := Sample.random_user_agent_lib)
      (Sample.filter_settings f2) Sample.w0 = (Ok p2, Sample.w0) /\
    RandomUserAgentProvider._ua p1 = RandomUserAgentProvider._ua p2.
Proof.
  intros f1 f2.
  apply (random_filter_order_irrelevant (H := Sample.random_user_agent_lib)
           (Sample.filter_settings f1) (Sample.filter_settings f2) f1 f2
           Sample.w0).
  - reflexivity.
  - reflexivity.
  - apply perm_swap.
  - compute_done.
  - repeat constructor; simpl; eexists; reflexivity.
Defined.

(** ** RandomUserAgentProvider: calls on a pool that is not empty *)

Section RandomUserAgentPool.
Context `{random_user_agent}.

Lemma drop_S_tl {A} (n : nat) (g : list A) : drop (S n) g = drop n (tl g).
Proof.
  destruct g as [| x g]; simpl.
  - destruct n; reflexivity.
  - reflexivity.
Qed.

(** One call on a pool that is not empty. *)
Lemma random_get_nonempty (p : RandomUserAgentProvider.t) filters
    (l : list LogRecord) (g : Rng) :
  RandomUserAgentProvider._ua_type p = PyDict filters ->
  UserAgent.user_agents (RandomUserAgentProvider._ua p) <> [] ->
  exists v extra,
    v ∈ pool_strings (RandomUserAgentProvider._ua p) /\
    RandomUserAgentProvider.get_random_ua (World p l g)
    = (Ok v, World p (l ++ extra) (tl g)) /\
    (length extra <= 1)%nat /\
    Forall (fun r => level r = WARNING) extra.
Proof.
  intros Htype Hne.
  destruct (pick_nonempty (RandomUserAgentProvider._ua p) g Hne)
    as (e & Hin & Hpick).
  rewrite (random_get_picked p filters l g (tl g) _ Htype Hpick).
  exists (PyStr (entry_user_agent e)). cbv zeta.
  destruct (length (UserAgent.user_agents (RandomUserAgentProvider._ua p))
            <? 100)%nat.
  - eexists. split; [| split; [reflexivity | split]].
    + unfold pool_strings. apply list_elem_of_In.
      apply (in_map (fun e => PyStr (entry_user_agent e))).
      apply list_elem_of_In. exact Hin.
    + simpl. lia.
    + repeat constructor.
  - exists []. split; [| split; [| split]].
    + unfold pool_strings. apply list_elem_of_In.
      apply (in_map (fun e => PyStr (entry_user_agent e))).
      apply list_elem_of_In. exact Hin.
    + simpl. rewrite app_nil_r. reflexivity.
    + simpl. lia.
    + constructor.
Qed.

End RandomUserAgentPool.

(** X13. On a constructed RandomUserAgentProvider whose pool is not empty,
    a call never raises: it returns the user-agent string of an entry of
    the pool, consumes one random draw, and adds to the log at most one
    record, a warning. *)
Theorem random_get_random_ua_from_pool
    `{random_user_agent} (settings : gmap string pyval) (w0 w0' : world unit)
    (p : RandomUserAgentProvider.t) (l : list LogRecord) (g : Rng) :
  RandomUserAgentProvider.__init__ settings w0 = (Ok p, w0') ->
  UserAgent.user_agents (RandomUserAgentProvider._ua p) <> [] ->
  exists v extra,
    v ∈ pool_strings (RandomUserAgentProvider._ua p) /\
    RandomUserAgentProvider.get_random_ua (World p l g)
    = (Ok v, World p (l ++ extra) (tl g)) /\
    (length extra <= 1)%nat /\
    Forall (fun r => level r = WARNING) extra.
Proof.
  intros Hinit Hne.
  destruct (random_init_inv settings w0 w0' p Hinit)
    as (filters & params & _ & _ & Hp).
  apply (random_get_nonempty p filters l g); [subst p; reflexivity | exact Hne].
Qed.

(** X14. On such a provider any number of calls in a row succeed: [n]
    calls return [n] strings of the pool, consume [n] random draws, keep
    the log they found and add at most [n] warnings to it. *)
Theorem random_call_n_from_pool
    `{random_user_agent} (settings : gmap string pyval) (w0 w0' : world unit)
    (p : RandomUserAgentProvider.t) (n : nat) (l : list LogRecord) (g : Rng) :
  RandomUserAgentProvider.__init__ settings w0 = (Ok p, w0') ->
  UserAgent.user_agents (RandomUserAgentProvider._ua p) <> [] ->
  exists uas extra,
    call_n RandomUserAgentProvider.get_random_ua n (World p l g)
    = (Ok uas, World p (l ++ extra) (drop n g)) /\
    length uas = n /\
    Forall (fun v => v ∈ pool_strings (RandomUserAgentProvider._ua p)) uas /\
    (length extra <= n)%nat /\
    Forall (fun r => level r = WARNING) extra.
Proof.
  intros Hinit Hne.
  destruct (random_init_inv settings w0 w0' p Hinit)
    as (filters & params & _ & _ & Hp).
  assert (Htype : RandomUserAgentProvider._ua_type p = PyDict filters)
    by (subst p; reflexivity).
  clear Hp Hinit. revert l g.
  induction n as [| k IH]; intros l g.
  - exists [], []. simpl. rewrite app_nil_r, drop_0.
    repeat split; auto.
  - destruct (random_get_nonempty p filters l g Htype Hne)
      as (v & extra1 & Hv & Hcall & Hlen1 & Hwarn1).
    destruct (IH (l ++ extra1)%list (tl g))
      as (uas & extra2 & Hrest & Hlen & Hall & Hlen2 & Hwarn2).
    exists (v :: uas), (extra1 ++ extra2)%list.
    split; [| split; [| split; [| split]]].
    + simpl. unfold bind at 1. rewrite Hcall.
      unfold bind at 1. rewrite Hrest.
      unfold ret. rewrite drop_S_tl, app_assoc. reflexivity.
    + simpl. rewrite Hlen. reflexivity.
    + constructor; assumption.
    + rewrite length_app. lia.
    + apply Forall_app. split; assumption.
Qed.

Lemma sample_mobile_pool_nonempty :
  UserAgent.user_agents
    (UserAgent.mk (H := Sample.random_user_agent_lib)
       (take 100
          (List.filter
             (entry_matches
                (<["hardware_types" := "mobile"]> (∅ : gmap string string)))
             load_user_agents)))
  <> [].
Proof.
  intros Hempty.
  assert (Hlen :
    length
      (UserAgent.user_agents
         (UserAgent.mk (H := Sample.random_user_agent_lib)
            (take 100
               (List.filter
                  (entry_matches
                     (<["hardware_types" := "mobile"]>
                        (∅ : gmap string string)))
                  load_user_agents))))
    = 2%nat) by reflexivity.
  rewrite Hempty in Hlen. discriminate Hlen.
Qed.

Lemma random_get_random_ua_from_pool_witness :
  let filters := [("hardware_types", PyStr "mobile")] in
  let p := RandomUserAgentProvider.mk (H := Sample.random_user_agent_lib)
             (Sample.filter_settings filters) (PyDict filters)
             (UserAgent.mk
                (take 100
                   (List.filter
                      (entry_matches
                         (<["hardware_types" := "mobile"]>
                            (∅ : gmap string string)))
                      load_user_agents))) in
  exists v extra,
    v ∈ pool_strings (RandomUserAgentProvider._ua p) /\
    RandomUserAgentProvider.get_random_ua (World p [] [8; 3])
    = (Ok v, World p ([] ++ extra) [3]) /\
    (length extra <= 1)%nat /\
    Forall (fun r => level r = WARNING) extra.
Proof.
  intros filters p.
  apply (random_get_random_ua_from_pool (H := Sample.random_user_agent_lib)
           (Sample.filter_settings filters) Sample.w0 Sample.w0 p
           [] [8; 3]%nat).
  - reflexivity.
  - exact sample_mobile_pool_nonempty.
Defined.

Lemma random_call_n_from_pool_witness :
  let filters := [("hardware_types", PyStr "mobile")] in
  let p := RandomUserAgentProvider.mk (H := Sample.random_user_agent_lib)
             (Sample.filter_settings filters) (PyDict filters)
             (UserAgent.mk
                (take 100
                   (List.filter
                      (entry_matches
                         (<["hardware_types" := "mobile"]>
                            (∅ : gmap string string)))
                      load_user_agents))) in
  exists uas extra,
    call_n RandomUserAgentProvider.get_random_ua 3 (World p [] [8; 3; 5; 2])
    = (Ok uas, World p ([] ++ extra) [2]) /\
    length uas = 3%nat /\
    Forall (fun v => v ∈ pool_strings (RandomUserAgentProvider._ua p)) uas /\
    (length extra <= 3)%nat /\
    Forall (fun r => level r = WARNING) extra.
Proof.
  intros filters p.
  apply (random_call_n_from_pool (H := Sample.random_user_agent_lib)
           (Sample.filter_settings filters) Sample.w0 Sample.w0 p
           3%nat [] [8; 3; 5; 2]%nat).
  - reflexivity.
  - exact sample_mobile_pool_nonempty.
Defined.
